(** * convoviz.models._message: the message record, its validators and accessors

    A shallow embedding of [src/convoviz/models/_message.py].  Raw input is
    what [json.load] hands over: [None], booleans, integers, floats, strings,
    lists and string-keyed dicts.  Each class of the source is a module here;
    the validators keep their source names. *)

From Stdlib Require Import String Ascii List ZArith Bool DecimalString Lia.
Import ListNotations.
Local Open Scope string_scope.

(** ** Python values *)

(** A float is carried by the text [repr] gives for it; nothing below
    computes with floats.  A [str] is carried by its UTF-8 bytes.  A dict is
    an association list in insertion order, as [json.dumps] walks it; a
    well-formed dict has no repeated key. *)
#[local] Set Warnings "-register-all,-notation-for-abbreviation".
Inductive pyval : Type :=
| PNone
| PBool (b : bool)
| PInt (z : Z)
| PFloat (repr : string)
| PStr (s : string)
| PList (items : list pyval)
| PDict (entries : list (string * pyval)).

Definition dict : Type := list (string * pyval).

(** [type(v).__name__] *)
Definition type_name (v : pyval) : string :=
  match v with
  | PNone => "NoneType"
  | PBool _ => "bool"
  | PInt _ => "int"
  | PFloat _ => "float"
  | PStr _ => "str"
  | PList _ => "list"
  | PDict _ => "dict"
  end.

(** [str(type(v))], as an f-string renders [{type(v)}] *)
Definition type_repr (v : pyval) : string :=
  "<class '" ++ type_name v ++ "'>".

Definition is_str (v : pyval) : bool :=
  match v with PStr _ => true | _ => false end.

Definition is_dict (v : pyval) : bool :=
  match v with PDict _ => true | _ => false end.

Definition is_none (v : pyval) : bool :=
  match v with PNone => true | _ => false end.

(** ** Dict operations *)

(** [k in d] and [d[k]] together: the value bound to [k], if any *)
Fixpoint dict_lookup (k : string) (d : dict) : option pyval :=
  match d with
  | [] => None
  | (k', v) :: rest => if String.eqb k k' then Some v else dict_lookup k rest
  end.

(** [d.get(k)]: the value bound to [k], [None] when there is none *)
Definition dict_get (k : string) (d : dict) : pyval :=
  match dict_lookup k d with
  | Some v => v
  | None => PNone
  end.

(** [d[k] = v]: an existing key keeps its place, a new one goes last *)
Fixpoint dict_set (k : string) (v : pyval) (d : dict) : dict :=
  match d with
  | [] => [(k, v)]
  | (k', v') :: rest =>
      if String.eqb k k' then (k', v) :: rest
      else (k', v') :: dict_set k v rest
  end.

(** [d.update(other)] *)
Definition dict_update (d other : dict) : dict :=
  fold_left (fun acc kv => dict_set (fst kv) (snd kv) acc) other d.

(** ** json.dumps with its default arguments *)

Definition dquote : string := String (ascii_of_nat 34) EmptyString.

Definition hex_digit (n : N) : ascii :=
  nth (N.to_nat n) (list_ascii_of_string "0123456789abcdef") "0"%char.

(** [format(n, '04x')] for [n] below [0x10000] *)
Definition hex4 (n : N) : string :=
  String (hex_digit (n / 4096))
    (String (hex_digit ((n / 256) mod 16))
       (String (hex_digit ((n / 16) mod 16))
          (String (hex_digit (n mod 16)) EmptyString))).

(** The [\uXXXX] form of a code point, a surrogate pair above [0xFFFF] *)
Definition u_escape (cp : N) : string :=
  if (cp <? 65536)%N then "\u" ++ hex4 cp
  else
    let v := (cp - 65536)%N in
    "\u" ++ hex4 (55296 + v / 1024) ++ "\u" ++ hex4 (56320 + v mod 1024).

(** A code point below 128: [ESCAPE_DCT] of [json.encoder], then the
    [\uXXXX] form for what is left outside [' '..'~']. *)
Definition escape_char (c : ascii) : string :=
  let n := N_of_ascii c in
  if (n =? 34)%N then "\" ++ dquote
  else if (n =? 92)%N then "\\"
  else if (n =? 8)%N then "\b"
  else if (n =? 12)%N then "\f"
  else if (n =? 10)%N then "\n"
  else if (n =? 13)%N then "\r"
  else if (n =? 9)%N then "\t"
  else if ((32 <=? n) && (n <=? 126))%N then String c EmptyString
  else u_escape n.

(** The six payload bits of a UTF-8 continuation byte *)
Definition cont_bits (c : ascii) : N := (N_of_ascii c mod 64)%N.

(** The string is read code point by code point, a lead byte with its
    continuation bytes; on bytes that are not UTF-8 the result means
    nothing. *)
Fixpoint escape_string (s : string) : string :=
  match s with
  | EmptyString => EmptyString
  | String c rest =>
      let n := N_of_ascii c in
      if (n <? 128)%N then escape_char c ++ escape_string rest
      else if (n <? 224)%N then
        match rest with
        | String c2 rest2 =>
            u_escape ((n mod 32) * 64 + cont_bits c2) ++ escape_string rest2
        | _ => u_escape n
        end
      else if (n <? 240)%N then
        match rest with
        | String c2 (String c3 rest3) =>
            u_escape ((n mod 16) * 4096 + cont_bits c2 * 64 + cont_bits c3)
              ++ escape_string rest3
        | _ => u_escape n
        end
      else
        match rest with
        | String c2 (String c3 (String c4 rest4)) =>
            u_escape ((n mod 8) * 262144 + cont_bits c2 * 4096
                      + cont_bits c3 * 64 + cont_bits c4)
              ++ escape_string rest4
        | _ => u_escape n
        end
  end.

(** [py_encode_basestring_ascii] *)
Definition encode_basestring_ascii (s : string) : string :=
  dquote ++ escape_string s ++ dquote.

(** [sep.join(xs)] *)
Fixpoint join (sep : string) (xs : list string) : string :=
  match xs with
  | [] => EmptyString
  | [x] => x
  | x :: rest => x ++ sep ++ join sep rest
  end.

(** [int.__repr__] *)
Definition str_int (z : Z) : string := NilZero.string_of_int (Z.to_int z).

(** [floatstr] of [json.encoder]: [float.__repr__], but [NaN], [Infinity]
    and [-Infinity] for what [repr] writes [nan], [inf] and [-inf] *)
Definition floatstr (repr : string) : string :=
  if String.eqb repr "nan" then "NaN"
  else if String.eqb repr "inf" then "Infinity"
  else if String.eqb repr "-inf" then "-Infinity"
  else repr.

Fixpoint json_dumps (v : pyval) : string :=
  match v with
  | PNone => "null"
  | PBool true => "true"
  | PBool false => "false"
  | PInt z => str_int z
  | PFloat r => floatstr r
  | PStr s => encode_basestring_ascii s
  | PList items => "[" ++ join ", " (map json_dumps items) ++ "]"
  | PDict entries =>
      "{" ++ join ", "
               (map (fun kv => let '(k, x) := kv in
                               encode_basestring_ascii k ++ ": " ++ json_dumps x)
                    entries)
          ++ "}"
  end.

(** ** Exceptions raised by the accessors *)

Inductive exn : Type :=
| ValueError (msg : string)
| IndexError (msg : string)
| KeyError (key : string)
| TypeError.

Inductive raised (A : Type) : Type :=
| Return (a : A)
| Raise (e : exn).
Arguments Return {A} a.
Arguments Raise {A} e.

Definition bind {A B : Type} (r : raised A) (k : A -> raised B) : raised B :=
  match r with
  | Return a => k a
  | Raise e => Raise e
  end.

Notation "x <- r ;; k" := (bind r (fun x => k))
  (at level 61, r at next level, right associativity).

(** [xs[i]] for a non-negative [i] *)
Definition getitem {A : Type} (xs : list A) (i : nat) : raised A :=
  match nth_error xs i with
  | Some x => Return x
  | None => Raise (IndexError "list index out of range")
  end.

(** [v[k]] for a string [k] *)
Definition subscript (v : pyval) (k : string) : raised pyval :=
  match v with
  | PDict d =>
      match dict_lookup k d with
      | Some x => Return x
      | None => Raise (KeyError k)
      end
  | _ => Raise TypeError
  end.

(** ** The validation framework

    Validation reports every failing field, each as a line error with the
    path of the field and a kind; a validator that raises [ValueError]
    becomes a [value_error] line carrying its message. *)

Inductive loc_item : Type :=
| Key (name : string)
| Idx (i : nat).

Inductive err_kind : Type :=
| missing
| string_type
| int_type
| float_type
| bool_type
| datetime_type
| list_type
| dict_type
| model_type
| literal_error
| value_error (msg : string).

Record line_error : Type := mk_error { loc : list loc_item; kind : err_kind }.

Inductive validated (A : Type) : Type :=
| Valid (a : A)
| Invalid (errors : list line_error).
Arguments Valid {A} a.
Arguments Invalid {A} errors.

Definition errors_of {A : Type} (r : validated A) : list line_error :=
  match r with
  | Valid _ => []
  | Invalid es => es
  end.

Definition fail {A : Type} (k : err_kind) : validated A :=
  Invalid [mk_error [] k].

Definition fmap {A B : Type} (f : A -> B) (r : validated A) : validated B :=
  match r with
  | Valid a => Valid (f a)
  | Invalid es => Invalid es
  end.

(** Fields are validated one after the other and their errors collected. *)
Definition ap {A B : Type} (f : validated (A -> B)) (x : validated A)
  : validated B :=
  match f, x with
  | Valid g, Valid a => Valid (g a)
  | Valid _, Invalid es => Invalid es
  | Invalid es, Valid _ => Invalid es
  | Invalid es, Invalid es' => Invalid (es ++ es')%list
  end.

Notation "f <*> x" := (ap f x) (at level 52, left associativity).

Definition under (l : loc_item) (e : line_error) : line_error :=
  mk_error (l :: loc e) (kind e).

Definition at_loc {A : Type} (l : loc_item) (r : validated A) : validated A :=
  match r with
  | Valid a => Valid a
  | Invalid es => Invalid (map (under l) es)
  end.

(** A field without a default *)
Definition required {A : Type} (name : string) (check : pyval -> validated A)
  (d : dict) : validated A :=
  match dict_lookup name d with
  | Some v => at_loc (Key name) (check v)
  | None => Invalid [mk_error [Key name] missing]
  end.

(** A field with a default, which is not validated *)
Definition with_default {A : Type} (name : string) (dflt : A)
  (check : pyval -> validated A) (d : dict) : validated A :=
  match dict_lookup name d with
  | Some v => at_loc (Key name) (check v)
  | None => Valid dflt
  end.

(** [X | None] *)
Definition optional {A : Type} (check : pyval -> validated A) (v : pyval)
  : validated (option A) :=
  match v with
  | PNone => Valid None
  | _ => fmap Some (check v)
  end.

Definition of_option {A : Type} (k : err_kind) (o : option A) : validated A :=
  match o with
  | Some a => Valid a
  | None => fail k
  end.

(** [str] *)
Definition str_field (v : pyval) : validated string :=
  match v with
  | PStr s => Valid s
  | _ => fail string_type
  end.

(** [Any] *)
Definition any_field (v : pyval) : validated pyval := Valid v.

(** [dict[str, Any]] *)
Definition dict_field (v : pyval) : validated dict :=
  match v with
  | PDict d => Valid d
  | _ => fail dict_type
  end.

(** A field whose type is a model: the raw value is a mapping, handed to the
    model's constructor. *)
Definition model_field {A : Type} (init : dict -> validated A) (v : pyval)
  : validated A :=
  match v with
  | PDict d => init d
  | _ => fail model_type
  end.

(** A validator applied to each item of a list, the items numbered from [i] *)
Fixpoint each_item_from {A : Type} (check : pyval -> validated A) (i : nat)
  (items : list pyval) : validated (list A) :=
  match items with
  | [] => Valid []
  | v :: rest =>
      Valid cons <*> at_loc (Idx i) (check v) <*> each_item_from check (S i) rest
  end.

Definition list_field {A : Type} (check : pyval -> validated A) (v : pyval)
  : validated (list A) :=
  match v with
  | PList items => each_item_from check 0 items
  | _ => fail list_type
  end.

(** An error that sits at, or below, the field [name] *)
Definition at_field (name : string) (e : line_error) : Prop :=
  hd_error (loc e) = Some (Key name).

(** A raw entry that a [str | None = None] field accepts: no entry, [None]
    or a string *)
Definition nullable_str (entry : option pyval) : bool :=
  match entry with
  | None | Some PNone | Some (PStr _) => true
  | _ => false
  end.

(** What the framework does with [int], [float], [bool] and [datetime]
    fields is the library's business: the conversions are an interface. *)
Class Scalars : Type := {
  py_float : Type;
  py_datetime : Type;
  as_int : pyval -> option Z;
  as_float : pyval -> option py_float;
  as_bool : pyval -> option bool;
  as_datetime : pyval -> option py_datetime
}.

Definition int_field `{Scalars} (v : pyval) : validated Z :=
  of_option int_type (as_int v).

Definition float_field `{Scalars} (v : pyval) : validated py_float :=
  of_option float_type (as_float v).

Definition bool_field `{Scalars} (v : pyval) : validated bool :=
  of_option bool_type (as_bool v).

Definition datetime_field `{Scalars} (v : pyval) : validated py_datetime :=
  of_option datetime_type (as_datetime v).

(** The conversions that accept a JSON value of the matching kind only. *)
#[export] Instance json_scalars : Scalars := {|
  py_float := string;
  py_datetime := pyval;
  as_int := fun v => match v with PInt z => Some z | _ => None end;
  as_float := fun v =>
    match v with
    | PFloat r => Some r
    | PInt z => Some (str_int z ++ ".0")
    | _ => None
    end;
  as_bool := fun v => match v with PBool b => Some b | _ => None end;
  as_datetime := fun v =>
    match v with
    | PInt _ | PFloat _ => Some v
    | _ => None
    end
|}.

(** ** AuthorRole = Literal["user", "assistant", "system", "tool"] *)

Inductive AuthorRole : Type := user | assistant | system | tool.

Definition role_name (r : AuthorRole) : string :=
  match r with
  | user => "user"
  | assistant => "assistant"
  | system => "system"
  | tool => "tool"
  end.

Definition role_of_string (s : string) : option AuthorRole :=
  if String.eqb s "user" then Some user
  else if String.eqb s "assistant" then Some assistant
  else if String.eqb s "system" then Some system
  else if String.eqb s "tool" then Some tool
  else None.

Definition role_field (v : pyval) : validated AuthorRole :=
  match v with
  | PStr s => of_option literal_error (role_of_string s)
  | _ => fail literal_error
  end.

(** ** class ImageAssetPointer *)

Module ImageAssetPointer.

Record t : Type := mk {
  content_type : string;
  asset_pointer : string;
  size_bytes : Z;
  width : Z;
  height : Z;
  fovea : pyval;
  metadata : pyval
}.

(** The classmethod [validate] *)
Definition validate (values : dict) : dict :=
  let values :=
    if is_dict (dict_get "metadata" values)
    then dict_set "metadata"
           (PStr (json_dumps (dict_get "metadata" values))) values
    else if is_none (dict_get "metadata" values)
    then dict_set "metadata" (PStr "{}") values
    else values in
  if is_none (dict_get "fovea" values)
  then dict_set "fovea" (PStr EmptyString) values
  else values.

(** [__get_validators__]: what the class yields when asked for validators *)
Definition __get_validators__ : list (dict -> dict) := [validate].

(** The constructor call with the keyword mapping [kw].  The framework
    validates the declared fields on the mapping as given, all seven without
    a default; it asks a model for no validators of its own, so [validate]
    is not run. *)
Definition init `{Scalars} (kw : dict) : validated t :=
  Valid mk
    <*> required "content_type" str_field kw
    <*> required "asset_pointer" str_field kw
    <*> required "size_bytes" int_field kw
    <*> required "width" int_field kw
    <*> required "height" int_field kw
    <*> required "fovea" any_field kw
    <*> required "metadata" any_field kw.

End ImageAssetPointer.

(** ** class MessageAuthor *)

Module MessageAuthor.

Record t : Type := mk {
  role : AuthorRole;
  name : option string;
  metadata : dict
}.

Definition init (raw : dict) : validated t :=
  Valid mk
    <*> required "role" role_field raw
    <*> with_default "name" None (optional str_field) raw
    <*> required "metadata" dict_field raw.

End MessageAuthor.

(** ** class MessageContent *)

Module MessageContent.

(** An element of [parts]: [Union[str, ImageAssetPointer]] *)
Inductive part : Type :=
| PartStr (s : string)
| PartImage (img : ImageAssetPointer.t).

(** [parts] is declared a list with default [[]]; the [text] accessor of
    [Message] still tests it against [None], so the field is an option. *)
Record t : Type := mk {
  content_type : string;
  parts : option (list part);
  text : option string;
  result : option string
}.

(** The [pre=True, each_item=True] validator of [parts].  What it returns
    is a [str] or an [ImageAssetPointer] instance, which the element type
    [Union[str, ImageAssetPointer]] then takes as it is. *)
Definition validate_parts `{Scalars} (v : pyval) : validated part :=
  match v with
  | PDict kw => fmap PartImage (ImageAssetPointer.init kw)
  | PStr s => Valid (PartStr s)
  | _ => fail (value_error ("Invalid type for parts: " ++ type_repr v))
  end.

Definition init `{Scalars} (raw : dict) : validated t :=
  Valid mk
    <*> required "content_type" str_field raw
    <*> fmap Some (with_default "parts" [] (list_field validate_parts) raw)
    <*> with_default "text" None (optional str_field) raw
    <*> with_default "result" None (optional str_field) raw.

End MessageContent.

(** ** class MessageMetadata *)

Module MessageMetadata.

Record t : Type := mk {
  model_slug : option string;
  invoked_plugin : option dict;
  is_user_system_message : option bool;
  user_context_message_data : option dict
}.

Definition init `{Scalars} (raw : dict) : validated t :=
  Valid mk
    <*> with_default "model_slug" None (optional str_field) raw
    <*> with_default "invoked_plugin" None (optional dict_field) raw
    <*> with_default "is_user_system_message" None (optional bool_field) raw
    <*> with_default "user_context_message_data" None
          (optional dict_field) raw.

End MessageMetadata.

(** ** class Message *)

Module Message.

Section Model.
Context `{Scalars}.

Record t : Type := mk {
  id : string;
  author : MessageAuthor.t;
  create_time : option py_datetime;
  update_time : option py_datetime;
  content : MessageContent.t;
  status : string;
  end_turn : option bool;
  weight : py_float;
  metadata : MessageMetadata.t;
  recipient : string
}.

Definition init (raw : dict) : validated t :=
  Valid mk
    <*> required "id" str_field raw
    <*> required "author" (model_field MessageAuthor.init) raw
    <*> with_default "create_time" None (optional datetime_field) raw
    <*> with_default "update_time" None (optional datetime_field) raw
    <*> required "content" (model_field MessageContent.init) raw
    <*> required "status" str_field raw
    <*> with_default "end_turn" None (optional bool_field) raw
    <*> required "weight" float_field raw
    <*> required "metadata" (model_field MessageMetadata.init) raw
    <*> required "recipient" str_field raw.

(** [update_configs]: the shared [__configs] dict is the state, passed in
    and handed back. *)
Definition update_configs (configs : dict) (new : dict) : dict :=
  dict_update configs new.

(** The property [header], reading the shared [__configs] as it is now. *)
Definition header (configs : dict) (self : t) : raised pyval :=
  headers <- subscript (PDict configs) "author_headers" ;;
  subscript headers (role_name (MessageAuthor.role (author self))).

(** [convoviz.utils.code_block] *)
Variable code_block : string -> string.

(** [str] of a model instance *)
Variable model_str : ImageAssetPointer.t -> string.

(** [str(p)] for an element of [parts] *)
Definition str_part (p : MessageContent.part) : string :=
  match p with
  | MessageContent.PartStr s => s
  | MessageContent.PartImage img => model_str img
  end.

(** The property [text]. *)
Definition text (self : t) : raised string :=
  match MessageContent.parts (content self) with
  | Some parts =>
      p <- getitem parts 0 ;;
      Return (str_part p)
  | None =>
      match MessageContent.text (content self) with
      | Some s => Return (code_block s)
      | None =>
          match MessageContent.result (content self) with
          | Some r => Return r
          | None =>
              Raise (ValueError
                       ("No valid content found in message: " ++ id self))
          end
      end
  end.

End Model.

End Message.

(** ** Sample inputs *)

Definition newline : string := String (ascii_of_nat 10) EmptyString.

(** One fence for [code_block], which the accessor takes as a parameter;
    used where a concrete one is needed. *)
Definition fenced (s : string) : string :=
  "```python" ++ newline ++ s ++ newline ++ "```".

(** One string form for an image pointer, used where a concrete one is
    needed. *)
Definition image_tag (img : ImageAssetPointer.t) : string :=
  ImageAssetPointer.asset_pointer img.

(** A raw image part as the export has it, with the given [fovea] and
    [metadata]. *)
Definition raw_image (fovea metadata : pyval) : dict :=
  [("content_type", PStr "image_asset_pointer");
   ("asset_pointer", PStr "file-service://file-abc");
   ("size_bytes", PInt 2048);
   ("width", PInt 512);
   ("height", PInt 512);
   ("fovea", fovea);
   ("metadata", metadata)].

(** A raw message with the given role and content. *)
Definition raw_message (role : pyval) (content : dict) : dict :=
  [("id", PStr "msg-1");
   ("author", PDict [("role", role); ("name", PNone); ("metadata", PDict [])]);
   ("create_time", PFloat "1700000000.5");
   ("content", PDict content);
   ("status", PStr "finished_successfully");
   ("end_turn", PBool true);
   ("weight", PFloat "1.0");
   ("metadata", PDict [("model_slug", PStr "gpt-4")]);
   ("recipient", PStr "all")].

(** A message record with the given role and content. *)
Definition message_with (role : AuthorRole) (content : MessageContent.t)
  : Message.t :=
  Message.mk "msg-1" (MessageAuthor.mk role None [])
    (Some (PFloat "1700000000.5")) None content "finished_successfully"
    (Some true) "1.0"
    (MessageMetadata.mk (Some "gpt-4") None None None) "all".

(** A configuration of the shape [header] reads. *)
Definition sample_configs : dict :=
  [("author_headers",
    PDict [("system", PStr "### System");
           ("user", PStr "# Me");
           ("assistant", PStr "# ChatGPT");
           ("tool", PStr "### Tool output")])].

(** ** Shapes of raw input *)

(** A dict as Python has it: no key twice *)
Definition well_formed (d : dict) : Prop := NoDup (map fst d).

(** The fields of [Message] declared without a default *)
Definition message_required : list string :=
  ["id"; "author"; "content"; "status"; "weight"; "metadata"; "recipient"].

(** The fields of [Message] declared with the default [None] *)
Definition message_optional : list string :=
  ["create_time"; "update_time"; "end_turn"].

(** The keys [Message] reads from its raw mapping *)
Definition message_declared : list string :=
  (message_required ++ message_optional)%list.

(** * Properties *)

(** ** Dicts *)

Lemma dict_lookup_set_same (k : string) (v : pyval) (d : dict) :
  dict_lookup k (dict_set k v d) = Some v.
Proof.
  induction d as [|[k' v'] rest IH]; simpl.
  - now rewrite String.eqb_refl.
  - destruct (String.eqb k k') eqn:E; simpl; rewrite E; auto.
Qed.

Lemma dict_lookup_set_other (k k' : string) (v : pyval) (d : dict) :
  k <> k' -> dict_lookup k (dict_set k' v d) = dict_lookup k d.
Proof.
  intros Hne. induction d as [|[k2 v2] rest IH]; simpl.
  - destruct (String.eqb_spec k k'); [contradiction | reflexivity].
  - destruct (String.eqb_spec k' k2) as [->|Hk2]; simpl.
    + destruct (String.eqb_spec k k2); [contradiction | reflexivity].
    + destruct (String.eqb_spec k k2); auto.
Qed.

(** ** The applicative of validation *)

Lemma ap_valid_inv {A B : Type} (f : validated (A -> B)) (x : validated A)
  (b : B) :
  f <*> x = Valid b -> exists g a, f = Valid g /\ x = Valid a /\ b = g a.
Proof.
  destruct f as [g|es], x as [a|es']; simpl; try discriminate.
  intros [= <-]. now exists g, a.
Qed.

Lemma errors_of_ap {A B : Type} (f : validated (A -> B)) (x : validated A) :
  errors_of (f <*> x) = (errors_of f ++ errors_of x)%list.
Proof.
  destruct f, x; simpl; auto using app_nil_r.
Qed.

Lemma errors_of_fmap {A B : Type} (g : A -> B) (r : validated A) :
  errors_of (fmap g r) = errors_of r.
Proof. now destruct r. Qed.

Lemma errors_of_at_loc {A : Type} (l : loc_item) (r : validated A) :
  errors_of (at_loc l r) = map (under l) (errors_of r).
Proof. now destruct r. Qed.

Lemma fmap_valid_inv {A B : Type} (g : A -> B) (r : validated A) (b : B) :
  fmap g r = Valid b -> exists a, r = Valid a /\ b = g a.
Proof. destruct r; simpl; [intros [= <-]; eauto | discriminate]. Qed.

Lemma at_loc_valid_inv {A : Type} (l : loc_item) (r : validated A) (a : A) :
  at_loc l r = Valid a -> r = Valid a.
Proof. destruct r; simpl; [auto | discriminate]. Qed.

(** A result with an error is a failure, and its errors are those. *)
Lemma invalid_of_error {A : Type} (r : validated A) (e : line_error) :
  In e (errors_of r) -> r = Invalid (errors_of r).
Proof. destruct r; simpl; [contradiction | reflexivity]. Qed.

(** ** The [text] accessor *)

Section TextAccessor.
Context `{Scalars}.
Variable code_block : string -> string.
Variable model_str : ImageAssetPointer.t -> string.

Local Notation text := (Message.text code_block model_str).
Local Notation str_part := (Message.str_part model_str).
Local Notation parts_of m := (MessageContent.parts (Message.content m)).
Local Notation text_of m := (MessageContent.text (Message.content m)).
Local Notation result_of m := (MessageContent.result (Message.content m)).

(** C5: with [parts], [text] and [result] all null, [text] raises the
    [ValueError] whose message ends with the message's id; it does not
    return the empty string. *)
Theorem text_no_content_raises (m : Message.t) :
  parts_of m = None -> text_of m = None -> result_of m = None ->
  text m = Raise (ValueError
                    ("No valid content found in message: " ++ Message.id m))
  /\ text m <> Return EmptyString.
Proof.
  intros Hp Ht Hr. unfold Message.text. rewrite Hp, Ht, Hr.
  split; [reflexivity | discriminate].
Qed.

(** C8: with [parts] non-null and non-empty, [text] returns the string
    form of the first element: the string itself for a string, the string
    form of the model for an image pointer.  What follows the first element
    in [parts], and what the other fields hold, does not matter; for
    [parts = ["hello"]] it returns [hello]. *)
Theorem text_first_part_only (m : Message.t) (p : MessageContent.part)
  (rest : list MessageContent.part) :
  parts_of m = Some (p :: rest) ->
  text m = Return (str_part p)
  /\ (forall s, p = MessageContent.PartStr s -> text m = Return s)
  /\ (forall img, p = MessageContent.PartImage img ->
                  text m = Return (model_str img))
  /\ (forall m' rest', parts_of m' = Some (p :: rest') -> text m' = text m)
  /\ (p = MessageContent.PartStr "hello" -> text m = Return "hello").
Proof.
  intros Hp. unfold Message.text. rewrite Hp. simpl.
  split; [reflexivity | split; [| split; [| split]]].
  - now intros s ->.
  - now intros img ->.
  - intros m' rest' Hp'. now rewrite Hp'.
  - now intros ->.
Qed.

(** C10: with [parts] the empty list, [parts[0]] is out of range: [text]
    raises [IndexError] and returns nothing, whatever the [text] and
    [result] fields hold. *)
Theorem text_empty_parts_index_error (m : Message.t) :
  parts_of m = Some [] ->
  text m = Raise (IndexError "list index out of range")
  /\ (forall s, text m <> Return s)
  /\ (forall msg, text m <> Raise (ValueError msg)).
Proof.
  intros Hp. unfold Message.text. rewrite Hp. simpl.
  repeat split; intros; discriminate.
Qed.

End TextAccessor.

Lemma text_no_content_raises_witness :
  Message.text fenced image_tag
    (message_with tool (MessageContent.mk "text" None None None))
  = Raise (ValueError "No valid content found in message: msg-1")
  /\ Message.text fenced image_tag
       (message_with tool (MessageContent.mk "text" None None None))
     <> Return EmptyString.
Proof.
  exact (text_no_content_raises fenced image_tag
           (message_with tool (MessageContent.mk "text" None None None))
           eq_refl eq_refl eq_refl).
Defined.

Lemma text_first_part_only_witness :
  Message.text fenced image_tag
    (message_with user
       (MessageContent.mk "text"
          (Some [MessageContent.PartStr "hello, world";
                 MessageContent.PartStr "second part";
                 MessageContent.PartStr "third part"])
          (Some "print(1)") (Some "42")))
  = Return "hello, world"
  /\ Message.text fenced image_tag
       (message_with tool
          (MessageContent.mk "multimodal_text"
             (Some [MessageContent.PartStr "hello, world"]) None None))
     = Message.text fenced image_tag
         (message_with user
            (MessageContent.mk "text"
               (Some [MessageContent.PartStr "hello, world";
                      MessageContent.PartStr "second part";
                      MessageContent.PartStr "third part"])
               (Some "print(1)") (Some "42")))
  /\ Message.text fenced image_tag
       (message_with user
          (MessageContent.mk "text" (Some [MessageContent.PartStr "hello"])
             None None))
     = Return "hello".
Proof.
  split; [| split].
  - exact (proj1 (proj2
             (text_first_part_only fenced image_tag
                (message_with user
                   (MessageContent.mk "text"
                      (Some [MessageContent.PartStr "hello, world";
                             MessageContent.PartStr "second part";
                             MessageContent.PartStr "third part"])
                      (Some "print(1)") (Some "42")))
                (MessageContent.PartStr "hello, world")
                [MessageContent.PartStr "second part";
                 MessageContent.PartStr "third part"]
                eq_refl))
             "hello, world" eq_refl).
  - exact (proj1 (proj2 (proj2 (proj2
             (text_first_part_only fenced image_tag
                (message_with user
                   (MessageContent.mk "text"
                      (Some [MessageContent.PartStr "hello, world";
                             MessageContent.PartStr "second part";
                             MessageContent.PartStr "third part"])
                      (Some "print(1)") (Some "42")))
                (MessageContent.PartStr "hello, world")
                [MessageContent.PartStr "second part";
                 MessageContent.PartStr "third part"]
                eq_refl))))
             (message_with tool
                (MessageContent.mk "multimodal_text"
                   (Some [MessageContent.PartStr "hello, world"]) None None))
             [] eq_refl).
  - exact (proj2 (proj2 (proj2 (proj2
             (text_first_part_only fenced image_tag
                (message_with user
                   (MessageContent.mk "text"
                      (Some [MessageContent.PartStr "hello"]) None None))
                (MessageContent.PartStr "hello") [] eq_refl))))
             eq_refl).
Defined.

Lemma text_empty_parts_index_error_witness :
  Message.text fenced image_tag
    (message_with assistant
       (MessageContent.mk "code" (Some []) (Some "print(1)") (Some "42")))
  = Raise (IndexError "list index out of range").
Proof.
  exact (proj1
           (text_empty_parts_index_error fenced image_tag
              (message_with assistant
                 (MessageContent.mk "code" (Some []) (Some "print(1)")
                    (Some "42")))
              eq_refl)).
Defined.

(** ** The shared configuration and [header] *)

Lemma header_reads_author_headers `{Scalars} (configs headers : dict)
  (m : Message.t) :
  dict_lookup "author_headers" configs = Some (PDict headers) ->
  Message.header configs m
  = subscript (PDict headers)
      (role_name (MessageAuthor.role (Message.author m))).
Proof.
  intros Hl. unfold Message.header. simpl. now rewrite Hl.
Qed.

(** C2, as amended: after [update_configs] with a mapping whose
    [author_headers] entry gives [user] the header [### You], [header]
    returns [### You] for every message of role [user], whenever it was
    constructed: a message holds no configuration and [header] reads the
    shared one as it is now.  An update with the flat mapping
    [{"user": ...}] leaves every header as it was. *)
Theorem header_after_update `{Scalars} (configs : dict) (m : Message.t) :
  (forall headers,
      MessageAuthor.role (Message.author m) = user ->
      dict_lookup "user" headers = Some (PStr "### You") ->
      Message.header
        (Message.update_configs configs [("author_headers", PDict headers)]) m
      = Return (PStr "### You"))
  /\ (forall v,
         Message.header (Message.update_configs configs [("user", v)]) m
         = Message.header configs m).
Proof.
  split.
  - intros headers Hrole Hu.
    rewrite (header_reads_author_headers _ headers).
    + rewrite Hrole. simpl. now rewrite Hu.
    + unfold Message.update_configs, dict_update. simpl.
      apply dict_lookup_set_same.
  - intros v. unfold Message.header, Message.update_configs, dict_update.
    simpl. rewrite dict_lookup_set_other by discriminate. reflexivity.
Qed.

(** C2, as stated, fails: the update [{"user": "### You"}] sets a key
    [header] never reads, and a message of role [user] keeps its header. *)
Lemma header_after_update_counterexample :
  Message.header
    (Message.update_configs sample_configs [("user", PStr "### You")])
    (message_with user
       (MessageContent.mk "text" (Some [MessageContent.PartStr "hello"])
          None None))
  = Return (PStr "# Me")
  /\ Message.header
       (Message.update_configs sample_configs [("user", PStr "### You")])
       (message_with user
          (MessageContent.mk "text" (Some [MessageContent.PartStr "hello"])
             None None))
     <> Return (PStr "### You").
Proof.
  split; [reflexivity | discriminate].
Qed.

Lemma header_after_update_witness :
  Message.header
    (Message.update_configs sample_configs
       [("author_headers",
         PDict [("system", PStr "### System");
                ("user", PStr "### You");
                ("assistant", PStr "# ChatGPT");
                ("tool", PStr "### Tool output")])])
    (message_with user
       (MessageContent.mk "text" (Some [MessageContent.PartStr "hello"])
          None None))
  = Return (PStr "### You").
Proof.
  exact (proj1
           (header_after_update sample_configs
              (message_with user
                 (MessageContent.mk "text"
                    (Some [MessageContent.PartStr "hello"]) None None)))
           [("system", PStr "### System");
            ("user", PStr "### You");
            ("assistant", PStr "# ChatGPT");
            ("tool", PStr "### Tool output")]
           eq_refl eq_refl).
Defined.

(** ** ImageAssetPointer *)

Lemma validate_metadata (kw : dict) :
  dict_lookup "metadata" (ImageAssetPointer.validate kw)
  = if is_dict (dict_get "metadata" kw)
    then Some (PStr (json_dumps (dict_get "metadata" kw)))
    else if is_none (dict_get "metadata" kw)
         then Some (PStr "{}")
         else dict_lookup "metadata" kw.
Proof.
  unfold ImageAssetPointer.validate.
  match goal with
  | |- context [if is_none (dict_get "fovea" ?d) then _ else _] =>
      destruct (is_none (dict_get "fovea" d))
  end;
    rewrite ?dict_lookup_set_other by discriminate;
    destruct (is_dict (dict_get "metadata" kw));
    rewrite ?dict_lookup_set_same; auto;
    destruct (is_none (dict_get "metadata" kw));
    rewrite ?dict_lookup_set_same; auto.
Qed.

Lemma validate_fovea (kw : dict) :
  dict_lookup "fovea" (ImageAssetPointer.validate kw)
  = if is_none (dict_get "fovea" kw)
    then Some (PStr EmptyString)
    else dict_lookup "fovea" kw.
Proof.
  unfold ImageAssetPointer.validate.
  set (values := if is_dict (dict_get "metadata" kw) then _ else _).
  assert (Hl : dict_lookup "fovea" values = dict_lookup "fovea" kw).
  { subst values.
    destruct (is_dict (dict_get "metadata" kw));
      [| destruct (is_none (dict_get "metadata" kw))];
      rewrite ?dict_lookup_set_other by discriminate; reflexivity. }
  assert (Hg : dict_get "fovea" values = dict_get "fovea" kw).
  { unfold dict_get. now rewrite Hl. }
  rewrite Hg. destruct (is_none (dict_get "fovea" kw)).
  - apply dict_lookup_set_same.
  - exact Hl.
Qed.

Lemma required_valid_inv {A : Type} (name : string)
  (check : pyval -> validated A) (d : dict) (a : A) :
  required name check d = Valid a ->
  exists v, dict_lookup name d = Some v /\ check v = Valid a.
Proof.
  unfold required. destruct (dict_lookup name d) as [v|]; [| discriminate].
  intros Hv. exists v. split; [reflexivity |].
  now apply at_loc_valid_inv in Hv.
Qed.

Lemma required_errors_absent {A : Type} (name : string)
  (check : pyval -> validated A) (d : dict) :
  dict_lookup name d = None ->
  errors_of (required name check d) = [mk_error [Key name] missing].
Proof. intros Hl. unfold required. now rewrite Hl. Qed.

(** What a constructed record holds, field by field: each field is the
    entry of the keyword mapping, converted as its type says. *)
Lemma init_fields `{Scalars} (kw : dict) (img : ImageAssetPointer.t) :
  ImageAssetPointer.init kw = Valid img ->
  dict_lookup "content_type" kw
  = Some (PStr (ImageAssetPointer.content_type img))
  /\ dict_lookup "asset_pointer" kw
     = Some (PStr (ImageAssetPointer.asset_pointer img))
  /\ (exists v, dict_lookup "size_bytes" kw = Some v
                /\ as_int v = Some (ImageAssetPointer.size_bytes img))
  /\ (exists v, dict_lookup "width" kw = Some v
                /\ as_int v = Some (ImageAssetPointer.width img))
  /\ (exists v, dict_lookup "height" kw = Some v
                /\ as_int v = Some (ImageAssetPointer.height img))
  /\ dict_lookup "fovea" kw = Some (ImageAssetPointer.fovea img)
  /\ dict_lookup "metadata" kw = Some (ImageAssetPointer.metadata img).
Proof.
  unfold ImageAssetPointer.init. intros Hi.
  repeat match type of Hi with
         | _ <*> _ = Valid _ =>
             let g := fresh "g" in
             let a := fresh "a" in
             let Hx := fresh "Hx" in
             apply ap_valid_inv in Hi as (g & a & Hi & Hx & ->)
         end.
  injection Hi as <-.
  apply required_valid_inv in Hx as (v & Hv & [= <-]).
  apply required_valid_inv in Hx0 as (v0 & Hv0 & [= <-]).
  apply required_valid_inv in Hx1 as (v1 & Hv1 & E1).
  apply required_valid_inv in Hx2 as (v2 & Hv2 & E2).
  apply required_valid_inv in Hx3 as (v3 & Hv3 & E3).
  apply required_valid_inv in Hx4 as (v4 & Hv4 & E4).
  apply required_valid_inv in Hx5 as (v5 & Hv5 & E5).
  unfold int_field in E1, E2, E3.
  destruct (as_int v1) as [z1|] eqn:Z1; [injection E1 as <- | discriminate].
  destruct (as_int v2) as [z2|] eqn:Z2; [injection E2 as <- | discriminate].
  destruct (as_int v3) as [z3|] eqn:Z3; [injection E3 as <- | discriminate].
  destruct v4; try discriminate. injection E4 as <-.
  destruct v5; try discriminate. injection E5 as <-.
  simpl. repeat split; eauto.
Qed.

(** The seven keys present and of their types: the record is constructed. *)
Lemma init_total `{Scalars} (kw : dict) (ct ap : string) (sb w h fv md : pyval)
  (sbz wz hz : Z) :
  dict_lookup "content_type" kw = Some (PStr ct) ->
  dict_lookup "asset_pointer" kw = Some (PStr ap) ->
  dict_lookup "size_bytes" kw = Some sb -> as_int sb = Some sbz ->
  dict_lookup "width" kw = Some w -> as_int w = Some wz ->
  dict_lookup "height" kw = Some h -> as_int h = Some hz ->
  dict_lookup "fovea" kw = Some fv ->
  dict_lookup "metadata" kw = Some md ->
  ImageAssetPointer.init kw
  = Valid (ImageAssetPointer.mk ct ap sbz wz hz fv md).
Proof.
  intros Hct Hap Hsb Hsbz Hw Hwz Hh Hhz Hfv Hmd.
  unfold ImageAssetPointer.init, required.
  rewrite Hct, Hap, Hsb, Hw, Hh, Hfv, Hmd. unfold int_field.
  now rewrite Hsbz, Hwz, Hhz.
Qed.

(** A key left out is a missing field. *)
Lemma init_missing `{Scalars} (kw : dict) (name : string) :
  In name ["content_type"; "asset_pointer"; "size_bytes"; "width"; "height";
           "fovea"; "metadata"] ->
  dict_lookup name kw = None ->
  In (mk_error [Key name] missing) (errors_of (ImageAssetPointer.init kw)).
Proof.
  intros Hname Hl. unfold ImageAssetPointer.init.
  rewrite !errors_of_ap. cbn [errors_of app]. rewrite !in_app_iff.
  simpl in Hname.
  repeat destruct Hname as [<- | Hname]; try contradiction;
    rewrite (required_errors_absent _ _ _ Hl); simpl; tauto.
Qed.

(** C3: the code departs from the claim.  [validate] does what the claim
    says of [metadata] and [fovea]: a mapping becomes its [json.dumps]
    text, so [{"a": 1}] becomes the string [{"a": 1}], absent or null
    becomes [{}], anything else stays; a null or absent [fovea] becomes the
    empty string, anything else stays.  But the constructor does not run
    [validate]: a constructed record stores both entries as the keyword
    mapping gave them, and a mapping that lacks either is not
    constructed. *)
Theorem construction_skips_validate `{Scalars} (kw : dict) :
  (forall m, dict_lookup "metadata" kw = Some (PDict m) ->
             dict_lookup "metadata" (ImageAssetPointer.validate kw)
             = Some (PStr (json_dumps (PDict m))))
  /\ (dict_lookup "metadata" kw = None
      \/ dict_lookup "metadata" kw = Some PNone ->
      dict_lookup "metadata" (ImageAssetPointer.validate kw)
      = Some (PStr "{}"))
  /\ (forall v, dict_lookup "metadata" kw = Some v ->
                is_dict v = false -> is_none v = false ->
                dict_lookup "metadata" (ImageAssetPointer.validate kw)
                = Some v)
  /\ (dict_lookup "fovea" kw = None \/ dict_lookup "fovea" kw = Some PNone ->
      dict_lookup "fovea" (ImageAssetPointer.validate kw)
      = Some (PStr EmptyString))
  /\ (forall v, dict_lookup "fovea" kw = Some v -> is_none v = false ->
                dict_lookup "fovea" (ImageAssetPointer.validate kw) = Some v)
  /\ json_dumps (PDict [("a", PInt 1)])
     = "{" ++ dquote ++ "a" ++ dquote ++ ": 1}"
  /\ json_dumps (PDict [("b", PInt 2); ("a", PInt 1)])
     = "{" ++ dquote ++ "b" ++ dquote ++ ": 2, "
           ++ dquote ++ "a" ++ dquote ++ ": 1}"
  /\ (forall img, ImageAssetPointer.init kw = Valid img ->
                  dict_lookup "metadata" kw
                  = Some (ImageAssetPointer.metadata img)
                  /\ dict_lookup "fovea" kw
                     = Some (ImageAssetPointer.fovea img))
  /\ (forall name, name = "metadata" \/ name = "fovea" ->
                   dict_lookup name kw = None ->
                   exists errs,
                     ImageAssetPointer.init kw = Invalid errs
                     /\ In (mk_error [Key name] missing) errs).
Proof.
  split; [| split; [| split; [| split; [| split; [| split; [| split;
    [| split]]]]]]].
  - intros m Hm. rewrite validate_metadata. unfold dict_get.
    now rewrite Hm.
  - intros Hm. rewrite validate_metadata. unfold dict_get.
    now destruct Hm as [-> | ->].
  - intros v Hm Hd Hn. rewrite validate_metadata. unfold dict_get.
    now rewrite Hm, Hd, Hn.
  - intros Hf. rewrite validate_fovea. unfold dict_get.
    now destruct Hf as [-> | ->].
  - intros v Hf Hn. rewrite validate_fovea. unfold dict_get.
    now rewrite Hf, Hn.
  - reflexivity.
  - reflexivity.
  - intros img Hi. apply init_fields in Hi. tauto.
  - intros name Hname Hl.
    assert (He : In (mk_error [Key name] missing)
                   (errors_of (ImageAssetPointer.init kw))).
    { apply init_missing; [| exact Hl].
      destruct Hname as [-> | ->]; simpl; tauto. }
    exists (errors_of (ImageAssetPointer.init kw)). split; [| exact He].
    exact (invalid_of_error _ _ He).
Qed.

Lemma construction_skips_validate_witness :
  ImageAssetPointer.init (raw_image PNone (PDict [("a", PInt 1)]))
  = Valid (ImageAssetPointer.mk "image_asset_pointer"
             "file-service://file-abc" 2048 512 512
             PNone (PDict [("a", PInt 1)]))
  /\ (dict_lookup "metadata" (raw_image PNone (PDict [("a", PInt 1)]))
      = Some (PDict [("a", PInt 1)])
      /\ dict_lookup "fovea" (raw_image PNone (PDict [("a", PInt 1)]))
         = Some PNone)
  /\ dict_lookup "metadata"
       (ImageAssetPointer.validate (raw_image PNone (PDict [("a", PInt 1)])))
     = Some (PStr (json_dumps (PDict [("a", PInt 1)])))
  /\ dict_lookup "fovea"
       (ImageAssetPointer.validate (raw_image PNone (PDict [("a", PInt 1)])))
     = Some (PStr EmptyString)
  /\ dict_lookup "metadata"
       (ImageAssetPointer.validate
          [("content_type", PStr "image_asset_pointer")])
     = Some (PStr "{}")
  /\ dict_lookup "fovea"
       (ImageAssetPointer.validate (raw_image (PInt 512) PNone))
     = Some (PInt 512)
  /\ dict_lookup "metadata"
       (ImageAssetPointer.validate
          (raw_image (PInt 512) (PStr "already text")))
     = Some (PStr "already text")
  /\ exists errs,
      ImageAssetPointer.init
        [("content_type", PStr "image_asset_pointer");
         ("asset_pointer", PStr "file-service://file-abc");
         ("size_bytes", PInt 2048); ("width", PInt 512);
         ("height", PInt 512); ("fovea", PNone)]
      = Invalid errs
      /\ In (mk_error [Key "metadata"] missing) errs.
Proof.
  destruct (@construction_skips_validate json_scalars
              (raw_image PNone (PDict [("a", PInt 1)])))
    as (Hmd & _ & _ & Hfv & _ & _ & _ & Hstored & _).
  destruct (@construction_skips_validate json_scalars
              [("content_type", PStr "image_asset_pointer")])
    as (_ & Habsent & _).
  destruct (@construction_skips_validate json_scalars
              (raw_image (PInt 512) PNone))
    as (_ & _ & _ & _ & Hkeep & _).
  destruct (@construction_skips_validate json_scalars
              (raw_image (PInt 512) (PStr "already text")))
    as (_ & _ & Htext & _).
  destruct (@construction_skips_validate json_scalars
              [("content_type", PStr "image_asset_pointer");
               ("asset_pointer", PStr "file-service://file-abc");
               ("size_bytes", PInt 2048); ("width", PInt 512);
               ("height", PInt 512); ("fovea", PNone)])
    as (_ & _ & _ & _ & _ & _ & _ & _ & Hmissing).
  split; [reflexivity |].
  split.
  { exact (Hstored
             (ImageAssetPointer.mk "image_asset_pointer"
                "file-service://file-abc" 2048 512 512
                PNone (PDict [("a", PInt 1)]))
             eq_refl). }
  split; [exact (Hmd [("a", PInt 1)] eq_refl) |].
  split; [exact (Hfv (or_intror eq_refl)) |].
  split; [exact (Habsent (or_introl eq_refl)) |].
  split; [exact (Hkeep (PInt 512) eq_refl eq_refl) |].
  split; [exact (Htext (PStr "already text") eq_refl eq_refl eq_refl) |].
  exact (Hmissing "metadata" (or_introl eq_refl) eq_refl).
Defined.

(** ** Where the errors of a field sit *)

Lemma at_loc_errors_head {A : Type} (name : string) (r : validated A)
  (e : line_error) :
  In e (errors_of (at_loc (Key name) r)) -> at_field name e.
Proof.
  rewrite errors_of_at_loc, in_map_iff. now intros (e' & <- & _).
Qed.

Lemma required_errors_head {A : Type} (name : string)
  (check : pyval -> validated A) (d : dict) (e : line_error) :
  In e (errors_of (required name check d)) -> at_field name e.
Proof.
  unfold required. destruct (dict_lookup name d).
  - apply at_loc_errors_head.
  - simpl. now intros [<- | []].
Qed.

Lemma with_default_errors_head {A : Type} (name : string) (dflt : A)
  (check : pyval -> validated A) (d : dict) (e : line_error) :
  In e (errors_of (with_default name dflt check d)) -> at_field name e.
Proof.
  unfold with_default. destruct (dict_lookup name d).
  - apply at_loc_errors_head.
  - simpl. contradiction.
Qed.

Lemma required_errors_present {A : Type} (name : string)
  (check : pyval -> validated A) (d : dict) (v : pyval) :
  dict_lookup name d = Some v ->
  errors_of (required name check d) = map (under (Key name)) (errors_of (check v)).
Proof.
  intros Hl. unfold required. rewrite Hl. apply errors_of_at_loc.
Qed.

Lemma with_default_errors_present {A : Type} (name : string) (dflt : A)
  (check : pyval -> validated A) (d : dict) (v : pyval) :
  dict_lookup name d = Some v ->
  errors_of (with_default name dflt check d)
  = map (under (Key name)) (errors_of (check v)).
Proof.
  intros Hl. unfold with_default. rewrite Hl. apply errors_of_at_loc.
Qed.

Lemma with_default_valid_inv {A : Type} (name : string) (dflt : A)
  (check : pyval -> validated A) (d : dict) (a : A) :
  with_default name dflt check d = Valid a ->
  (dict_lookup name d = None /\ a = dflt)
  \/ (exists v, dict_lookup name d = Some v /\ check v = Valid a).
Proof.
  unfold with_default. destruct (dict_lookup name d) as [v|].
  - intros Hv. right. exists v. split; [reflexivity |].
    now apply at_loc_valid_inv in Hv.
  - intros [= <-]. now left.
Qed.

(** ** Validators applied item by item *)

Lemma each_item_errors {A : Type} (check : pyval -> validated A)
  (items : list pyval) :
  forall (i k : nat) (v : pyval) (e : line_error),
    nth_error items k = Some v ->
    In e (errors_of (check v)) ->
    In (under (Idx (i + k)) e) (errors_of (each_item_from check i items)).
Proof.
  induction items as [|x rest IH]; intros i k v e Hn He.
  - destruct k; discriminate.
  - cbn [each_item_from]. rewrite !errors_of_ap, errors_of_at_loc.
    cbn [errors_of app].
    apply in_or_app. destruct k as [|k]; simpl in Hn.
    + injection Hn as ->. left. rewrite Nat.add_0_r.
      now apply in_map.
    + right. replace (i + S k) with (S i + k) by lia. eauto.
Qed.

Lemma each_item_valid {A : Type} (check : pyval -> validated A)
  (items : list pyval) :
  forall (i : nat) (xs : list A),
    each_item_from check i items = Valid xs ->
    Forall2 (fun v x => check v = Valid x) items xs.
Proof.
  induction items as [|v rest IH]; intros i xs Hv; cbn [each_item_from] in Hv.
  - injection Hv as <-. constructor.
  - apply ap_valid_inv in Hv as (g & tl & Hg & Htl & ->).
    apply ap_valid_inv in Hg as (c & x & [= <-] & Hx & ->).
    apply at_loc_valid_inv in Hx.
    constructor; eauto.
Qed.

(** Every item that validates gives a valid list, item for item. *)
Lemma each_item_total {A : Type} (check : pyval -> validated A)
  (items : list pyval) (xs : list A) :
  Forall2 (fun v x => check v = Valid x) items xs ->
  forall i, each_item_from check i items = Valid xs.
Proof.
  induction 1 as [|v x rest xs' Hv _ IH]; intros i; simpl.
  - reflexivity.
  - now rewrite Hv, IH.
Qed.

(** ** The role literal *)

Lemma role_of_string_name (r : AuthorRole) :
  role_of_string (role_name r) = Some r.
Proof. now destruct r. Qed.

Lemma role_of_string_some (s : string) (r : AuthorRole) :
  role_of_string s = Some r -> s = role_name r.
Proof.
  unfold role_of_string.
  repeat match goal with
         | |- context [String.eqb s ?c] => destruct (String.eqb_spec s c)
         end; intros [= <-]; assumption.
Qed.

Lemma role_field_rejects (v : pyval) :
  v <> PStr "user" -> v <> PStr "assistant" ->
  v <> PStr "system" -> v <> PStr "tool" ->
  role_field v = fail literal_error.
Proof.
  intros Hu Ha Hs Ht. destruct v as [| | | |s| |]; try reflexivity.
  simpl. destruct (role_of_string s) as [r|] eqn:E; [| reflexivity].
  apply role_of_string_some in E. subst s.
  destruct r; contradiction.
Qed.

Lemma role_field_accepts (r : AuthorRole) :
  role_field (PStr (role_name r)) = Valid r.
Proof. simpl. now rewrite role_of_string_name. Qed.

(** ** Construction, field by field *)

Ltac split_ap H :=
  repeat match type of H with
         | _ <*> _ = Valid _ =>
             let g := fresh "g" in
             let a := fresh "a" in
             let Hx := fresh "Hfield" in
             apply ap_valid_inv in H as (g & a & H & Hx & ->)
         end;
  match type of H with
  | Valid _ = Valid _ => injection H as <-
  | _ => idtac
  end.

Ltac field_errors :=
  rewrite !errors_of_ap; cbn [errors_of app]; rewrite ?in_app_iff.

Lemma author_role_errors (author : dict) (v : pyval) (e : line_error) :
  dict_lookup "role" author = Some v ->
  In e (errors_of (role_field v)) ->
  In (under (Key "role") e) (errors_of (MessageAuthor.init author)).
Proof.
  intros Hl He. unfold MessageAuthor.init. field_errors.
  left. left. rewrite (required_errors_present _ _ _ v Hl).
  now apply in_map.
Qed.

Lemma content_parts_errors `{Scalars} (content : dict) (v : pyval)
  (e : line_error) :
  dict_lookup "parts" content = Some v ->
  In e (errors_of (list_field MessageContent.validate_parts v)) ->
  In (under (Key "parts") e) (errors_of (MessageContent.init content)).
Proof.
  intros Hl He. unfold MessageContent.init. field_errors.
  left. left. right. rewrite errors_of_fmap.
  rewrite (with_default_errors_present _ _ _ _ v Hl).
  now apply in_map.
Qed.

Lemma message_author_errors `{Scalars} (raw author : dict) (e : line_error) :
  dict_lookup "author" raw = Some (PDict author) ->
  In e (errors_of (MessageAuthor.init author)) ->
  In (under (Key "author") e) (errors_of (Message.init raw)).
Proof.
  intros Hl He. unfold Message.init. field_errors.
  do 8 left. right.
  rewrite (required_errors_present _ _ _ _ Hl). now apply in_map.
Qed.

Lemma message_content_errors `{Scalars} (raw content : dict)
  (e : line_error) :
  dict_lookup "content" raw = Some (PDict content) ->
  In e (errors_of (MessageContent.init content)) ->
  In (under (Key "content") e) (errors_of (Message.init raw)).
Proof.
  intros Hl He. unfold Message.init. field_errors.
  do 5 left. right.
  rewrite (required_errors_present _ _ _ _ Hl). now apply in_map.
Qed.

Lemma model_field_valid_inv {A : Type} (init : dict -> validated A)
  (v : pyval) (a : A) :
  model_field init v = Valid a -> exists d, v = PDict d /\ init d = Valid a.
Proof.
  destruct v; simpl; try discriminate. eauto.
Qed.

(** A constructed message has a constructed content. *)
Lemma message_content_valid `{Scalars} (raw : dict) (m : Message.t) :
  Message.init raw = Valid m ->
  exists content,
    dict_lookup "content" raw = Some (PDict content)
    /\ MessageContent.init content = Valid (Message.content m).
Proof.
  unfold Message.init. intros Hi. split_ap Hi.
  apply required_valid_inv in Hfield4 as (v & Hl & Hv).
  apply model_field_valid_inv in Hv as (d & -> & Hd). eauto.
Qed.

(** The [parts] of a constructed content: the default, or the raw items
    validated one by one. *)
Lemma content_parts_valid `{Scalars} (content : dict) (c : MessageContent.t) :
  MessageContent.init content = Valid c ->
  (dict_lookup "parts" content = None /\ MessageContent.parts c = Some [])
  \/ (exists items ps,
         dict_lookup "parts" content = Some (PList items)
         /\ MessageContent.parts c = Some ps
         /\ Forall2 (fun v p => MessageContent.validate_parts v = Valid p)
              items ps).
Proof.
  unfold MessageContent.init. intros Hi. split_ap Hi.
  apply fmap_valid_inv in Hfield1 as (ps & Hps & ->).
  apply with_default_valid_inv in Hps as [[Hl ->] | (v & Hl & Hv)].
  - now left.
  - right. destruct v; simpl in Hv; try discriminate.
    apply each_item_valid in Hv. exists items, ps. simpl. auto.
Qed.

(** ** Elements of [parts] *)



(** ** The author's role *)

Lemma author_no_role_error (author : dict) (r : AuthorRole) (e : line_error) :
  dict_lookup "role" author = Some (PStr (role_name r)) ->
  In e (errors_of (MessageAuthor.init author)) ->
  loc e <> [Key "role"].
Proof.
  intros Hl He Hloc. unfold MessageAuthor.init in He.
  rewrite !errors_of_ap in He. cbn [errors_of app] in He.
  rewrite !in_app_iff in He.
  destruct He as [[He | He] | He].
  - rewrite (required_errors_present _ _ _ _ Hl), role_field_accepts in He.
    contradiction.
  - apply with_default_errors_head in He. unfold at_field in He.
    rewrite Hloc in He. discriminate.
  - apply required_errors_head in He. unfold at_field in He.
    rewrite Hloc in He. discriminate.
Qed.

(** C7: a raw message whose [author.role] is not one of the four strings
    fails to construct, with a literal error at [author.role]; with one of
    the four, whatever else fails, no error sits at [author.role]. *)
Theorem role_closed_set `{Scalars} (raw author : dict) (v : pyval) :
  dict_lookup "author" raw = Some (PDict author) ->
  dict_lookup "role" author = Some v ->
  (v <> PStr "user" -> v <> PStr "assistant" ->
   v <> PStr "system" -> v <> PStr "tool" ->
   exists errs,
     Message.init raw = Invalid errs
     /\ In (mk_error [Key "author"; Key "role"] literal_error) errs)
  /\ (v = PStr "user" \/ v = PStr "assistant"
      \/ v = PStr "system" \/ v = PStr "tool" ->
      (exists r, role_field v = Valid r /\ v = PStr (role_name r))
      /\ forall e, In e (errors_of (Message.init raw)) ->
                   loc e <> [Key "author"; Key "role"]).
Proof.
  intros Ha Hr. split.
  - intros Hu Has Hs Ht.
    assert (He : In (mk_error [Key "author"; Key "role"] literal_error)
                   (errors_of (Message.init raw))).
    { apply (message_author_errors raw author
               (mk_error [Key "role"] literal_error) Ha).
      apply (author_role_errors author v (mk_error [] literal_error) Hr).
      rewrite role_field_rejects by assumption. now left. }
    exists (errors_of (Message.init raw)). split; [| exact He].
    exact (invalid_of_error _ _ He).
  - intros Hv.
    assert (Hrole : exists r, v = PStr (role_name r)).
    { destruct Hv as [-> | [-> | [-> | ->]]];
        [exists user | exists assistant | exists system | exists tool];
        reflexivity. }
    destruct Hrole as (r & ->). split.
    + exists r. split; [apply role_field_accepts | reflexivity].
    + intros e He Hloc. unfold Message.init in He.
      rewrite !errors_of_ap in He. cbn [errors_of app] in He.
      rewrite !in_app_iff in He.
      repeat destruct He as [He | He];
        try (first [apply required_errors_head in He
                   | apply with_default_errors_head in He];
             unfold at_field in He; rewrite Hloc in He; discriminate).
      rewrite (required_errors_present _ _ _ _ Ha) in He. simpl in He.
      apply in_map_iff in He as (e' & <- & He').
      injection Hloc as Hloc.
      exact (author_no_role_error author r e' Hr He' Hloc).
Qed.

Lemma role_closed_set_witness :
  (exists errs,
      Message.init
        (raw_message (PStr "bot")
           [("content_type", PStr "text"); ("parts", PList [PStr "hello"])])
      = Invalid errs
      /\ In (mk_error [Key "author"; Key "role"] literal_error) errs)
  /\ (exists r, role_field (PStr "tool") = Valid r
                /\ PStr "tool" = PStr (role_name r))
  /\ Message.init
       (raw_message (PStr "tool")
          [("content_type", PStr "text"); ("parts", PList [PStr "hello"])])
     = Valid (message_with tool
                (MessageContent.mk "text"
                   (Some [MessageContent.PartStr "hello"]) None None)).
Proof.
  split; [| split].
  - apply (proj1
             (role_closed_set
                (raw_message (PStr "bot")
                   [("content_type", PStr "text");
                    ("parts", PList [PStr "hello"])])
                [("role", PStr "bot"); ("name", PNone);
                 ("metadata", PDict [])]
                (PStr "bot") eq_refl eq_refl));
      discriminate.
  - apply (proj2
             (role_closed_set
                (raw_message (PStr "tool")
                   [("content_type", PStr "text");
                    ("parts", PList [PStr "hello"])])
                [("role", PStr "tool"); ("name", PNone);
                 ("metadata", PDict [])]
                (PStr "tool") eq_refl eq_refl)).
    right. right. right. reflexivity.
  - reflexivity.
Defined.

(** ** [parts] left out *)

Lemma optional_str_accepts (name : string) (content : dict) :
  nullable_str (dict_lookup name content) = true ->
  exists o, with_default name None (optional str_field) content = Valid o.
Proof.
  unfold with_default, nullable_str.
  destruct (dict_lookup name content) as [[]|]; try discriminate;
    intros _; simpl; eauto.
Qed.

(** C9: a raw content without a [parts] key gets the default.  No error of
    its construction sits at [parts]; a constructed record has
    [parts = []], not null; and it is constructed whenever [content_type]
    is a string and [text] and [result] are strings, null or left out.  A
    message constructed over such a content has [parts = []], so [text]
    takes the [parts] branch, where it raises [IndexError]. *)
Theorem parts_default_empty `{Scalars} (code_block : string -> string)
  (model_str : ImageAssetPointer.t -> string) (content : dict) :
  dict_lookup "parts" content = None ->
  (forall e, In e (errors_of (MessageContent.init content)) ->
             ~ at_field "parts" e)
  /\ (forall c, MessageContent.init content = Valid c ->
                MessageContent.parts c = Some [])
  /\ (forall s, dict_lookup "content_type" content = Some (PStr s) ->
                nullable_str (dict_lookup "text" content) = true ->
                nullable_str (dict_lookup "result" content) = true ->
                exists c, MessageContent.init content = Valid c
                          /\ MessageContent.content_type c = s
                          /\ MessageContent.parts c = Some [])
  /\ (forall raw m,
         dict_lookup "content" raw = Some (PDict content) ->
         Message.init raw = Valid m ->
         MessageContent.parts (Message.content m) = Some []
         /\ MessageContent.parts (Message.content m) <> None
         /\ Message.text code_block model_str m
            = Raise (IndexError "list index out of range")).
Proof.
  intros Hp.
  assert (Hdefault : forall c, MessageContent.init content = Valid c ->
                               MessageContent.parts c = Some []).
  { intros c Hc.
    destruct (content_parts_valid content c Hc)
      as [[_ Hnil] | (items & ps & Hl & _)]; [exact Hnil | congruence]. }
  split; [| split; [exact Hdefault | split]].
  - intros e He Hat. unfold MessageContent.init in He.
    rewrite !errors_of_ap in He. cbn [errors_of app] in He.
    rewrite !in_app_iff in He. unfold at_field in Hat.
    destruct He as [[[He | He] | He] | He].
    + apply required_errors_head in He. unfold at_field in He. congruence.
    + unfold with_default in He. rewrite Hp in He. contradiction.
    + apply with_default_errors_head in He. unfold at_field in He.
      congruence.
    + apply with_default_errors_head in He. unfold at_field in He.
      congruence.
  - intros s Hct Ht Hr.
    destruct (optional_str_accepts "text" content Ht) as (t & Htext).
    destruct (optional_str_accepts "result" content Hr) as (r & Hres).
    exists (MessageContent.mk s (Some []) t r).
    unfold MessageContent.init, required, with_default at 1.
    rewrite Hct, Hp, Htext, Hres. simpl. auto.
  - intros raw m Hc Hm.
    destruct (message_content_valid raw m Hm) as (content' & Hc' & Hinit).
    rewrite Hc in Hc'. injection Hc' as <-.
    pose proof (Hdefault _ Hinit) as Hnil.
    split; [exact Hnil | split; [congruence |]].
    unfold Message.text. now rewrite Hnil.
Qed.

Lemma parts_default_empty_witness :
  (exists c,
      MessageContent.init
        [("content_type", PStr "code"); ("text", PStr "print(1)")]
      = Valid c
      /\ MessageContent.content_type c = "code"
      /\ MessageContent.parts c = Some [])
  /\ Message.init
       (raw_message (PStr "assistant")
          [("content_type", PStr "code"); ("text", PStr "print(1)")])
     = Valid (message_with assistant
                (MessageContent.mk "code" (Some []) (Some "print(1)") None))
  /\ Message.text fenced image_tag
       (message_with assistant
          (MessageContent.mk "code" (Some []) (Some "print(1)") None))
     = Raise (IndexError "list index out of range").
Proof.
  split; [| split].
  - exact (proj1 (proj2 (proj2
             (parts_default_empty fenced image_tag
                [("content_type", PStr "code"); ("text", PStr "print(1)")]
                eq_refl)))
             "code" eq_refl eq_refl eq_refl).
  - reflexivity.
  - exact (proj2 (proj2
             (proj2 (proj2 (proj2
                (parts_default_empty fenced image_tag
                   [("content_type", PStr "code"); ("text", PStr "print(1)")]
                   eq_refl)))
                (raw_message (PStr "assistant")
                   [("content_type", PStr "code"); ("text", PStr "print(1)")])
                (message_with assistant
                   (MessageContent.mk "code" (Some []) (Some "print(1)") None))
                eq_refl eq_refl))).
Defined.

(** ** A code message *)

Lemma optional_str_stored (name : string) (content : dict) (s : string)
  (o : option string) :
  dict_lookup name content = Some (PStr s) ->
  with_default name None (optional str_field) content = Valid o ->
  o = Some s.
Proof.
  intros Hl. unfold with_default. rewrite Hl. simpl. now intros [= <-].
Qed.

(** C1: the code departs from the claim.  A raw content with no [parts] key
    and a [text] (or a [result]) is constructed with [parts = []], the
    declared default, and keeps its [text] and [result]; [parts] is then
    non-null, [text] evaluates [parts[0]] and raises [IndexError].  The
    branches that return the code block of [text], or [result] as it is,
    are not reached. *)
Theorem text_code_message_raises `{Scalars} (code_block : string -> string)
  (model_str : ImageAssetPointer.t -> string) (raw content : dict)
  (m : Message.t) :
  dict_lookup "content" raw = Some (PDict content) ->
  dict_lookup "parts" content = None ->
  Message.init raw = Valid m ->
  MessageContent.parts (Message.content m) = Some []
  /\ Message.text code_block model_str m
     = Raise (IndexError "list index out of range")
  /\ (forall s, dict_lookup "text" content = Some (PStr s) ->
                MessageContent.text (Message.content m) = Some s
                /\ Message.text code_block model_str m
                   <> Return (code_block s))
  /\ (forall r, dict_lookup "result" content = Some (PStr r) ->
                MessageContent.result (Message.content m) = Some r
                /\ Message.text code_block model_str m <> Return r).
Proof.
  intros Hc Hp Hm.
  destruct (message_content_valid raw m Hm) as (content' & Hc' & Hinit).
  rewrite Hc in Hc'. injection Hc' as <-.
  assert (Hnil : MessageContent.parts (Message.content m) = Some []).
  { destruct (content_parts_valid content _ Hinit)
      as [[_ Hnil] | (items & ps & Hl & _)]; [exact Hnil | congruence]. }
  assert (Htext : Message.text code_block model_str m
                  = Raise (IndexError "list index out of range")).
  { unfold Message.text. now rewrite Hnil. }
  split; [exact Hnil | split; [exact Htext |]].
  rewrite Htext.
  unfold MessageContent.init in Hinit. split_ap Hinit. simpl.
  split.
  - intros s Hs. split; [| discriminate].
    exact (optional_str_stored "text" content s _ Hs Hfield0).
  - intros r Hr. split; [| discriminate].
    exact (optional_str_stored "result" content r _ Hr Hfield).
Qed.

Lemma text_code_message_raises_witness :
  Message.init
    (raw_message (PStr "assistant")
       [("content_type", PStr "code"); ("text", PStr "print(1)")])
  = Valid (message_with assistant
             (MessageContent.mk "code" (Some []) (Some "print(1)") None))
  /\ Message.text fenced image_tag
       (message_with assistant
          (MessageContent.mk "code" (Some []) (Some "print(1)") None))
     = Raise (IndexError "list index out of range")
  /\ Message.text fenced image_tag
       (message_with assistant
          (MessageContent.mk "code" (Some []) (Some "print(1)") None))
     <> Return (fenced "print(1)")
  /\ Message.text fenced image_tag
       (message_with tool
          (MessageContent.mk "execution_output" (Some []) None (Some "42")))
     <> Return "42".
Proof.
  destruct (@text_code_message_raises json_scalars fenced image_tag
              (raw_message (PStr "assistant")
                 [("content_type", PStr "code"); ("text", PStr "print(1)")])
              [("content_type", PStr "code"); ("text", PStr "print(1)")]
              (message_with assistant
                 (MessageContent.mk "code" (Some []) (Some "print(1)") None))
              eq_refl eq_refl eq_refl)
    as (_ & Hraise & Htext & _).
  destruct (@text_code_message_raises json_scalars fenced image_tag
              (raw_message (PStr "tool")
                 [("content_type", PStr "execution_output");
                  ("result", PStr "42")])
              [("content_type", PStr "execution_output");
               ("result", PStr "42")]
              (message_with tool
                 (MessageContent.mk "execution_output" (Some []) None
                    (Some "42")))
              eq_refl eq_refl eq_refl)
    as (_ & _ & _ & Hresult).
  split; [reflexivity |].
  split; [exact Hraise |].
  split; [exact (proj2 (Htext "print(1)" eq_refl)) |].
  exact (proj2 (Hresult "42" eq_refl)).
Defined.

(** ** What an image pointer stores *)

Lemma parts_image_source `{Scalars} (raw : dict) (m : Message.t)
  (ps : list MessageContent.part) (img : ImageAssetPointer.t) :
  Message.init raw = Valid m ->
  MessageContent.parts (Message.content m) = Some ps ->
  In (MessageContent.PartImage img) ps ->
  exists content items kw,
    dict_lookup "content" raw = Some (PDict content)
    /\ dict_lookup "parts" content = Some (PList items)
    /\ In (PDict kw) items
    /\ ImageAssetPointer.init kw = Valid img.
Proof.
  intros Hm Hps Hin.
  destruct (message_content_valid raw m Hm) as (content & Hc & Hinit).
  destruct (content_parts_valid content _ Hinit)
    as [[_ Hnil] | (items & ps' & Hl & Hps' & Hall)].
  - rewrite Hps in Hnil. injection Hnil as ->. contradiction.
  - rewrite Hps in Hps'. injection Hps' as <-.
    exists content, items.
    assert (Hkw : exists kw, In (PDict kw) items
                             /\ ImageAssetPointer.init kw = Valid img).
    { clear Hps Hinit Hl. induction Hall as [|v p items ps Hv _ IH].
      - contradiction.
      - destruct Hin as [-> | Hin].
        + destruct v; simpl in Hv; try discriminate.
          apply fmap_valid_inv in Hv as (img' & Hi & [= ->]).
          exists entries. split; [now left | exact Hi].
        + destruct (IH Hin) as (kw & Hk & Hi).
          exists kw. split; [now right | exact Hi]. }
    destruct Hkw as (kw & Hk & Hi). exists kw. auto.
Qed.

(** C4: the code departs from the claim.  The constructor stores [fovea]
    and [metadata] as the raw mapping gave them: a null [fovea] is stored
    as null and a mapping [metadata] as the mapping, neither as a string.
    The same holds of every image pointer among the [parts] of a
    constructed message: it stores the two entries of the raw mapping it
    was constructed from. *)
Theorem image_pointer_stores_raw `{Scalars} :
  (forall kw img,
      ImageAssetPointer.init kw = Valid img ->
      (dict_lookup "fovea" kw = Some PNone ->
       ImageAssetPointer.fovea img = PNone
       /\ is_str (ImageAssetPointer.fovea img) = false)
      /\ (forall d, dict_lookup "metadata" kw = Some (PDict d) ->
                    ImageAssetPointer.metadata img = PDict d
                    /\ is_str (ImageAssetPointer.metadata img) = false)
      /\ (dict_lookup "metadata" kw = Some PNone ->
          ImageAssetPointer.metadata img = PNone))
  /\ (forall raw m ps img,
         Message.init raw = Valid m ->
         MessageContent.parts (Message.content m) = Some ps ->
         In (MessageContent.PartImage img) ps ->
         exists content items kw,
           dict_lookup "content" raw = Some (PDict content)
           /\ dict_lookup "parts" content = Some (PList items)
           /\ In (PDict kw) items
           /\ dict_lookup "fovea" kw = Some (ImageAssetPointer.fovea img)
           /\ dict_lookup "metadata" kw
              = Some (ImageAssetPointer.metadata img)).
Proof.
  split.
  - intros kw img Hi.
    apply init_fields in Hi as (_ & _ & _ & _ & _ & Hf & Hm).
    split; [| split].
    + intros Hn. rewrite Hn in Hf. injection Hf as <-. auto.
    + intros d Hd. rewrite Hd in Hm. injection Hm as <-. auto.
    + intros Hn. rewrite Hn in Hm. now injection Hm as <-.
  - intros raw m ps img Hm Hps Hin.
    destruct (parts_image_source raw m ps img Hm Hps Hin)
      as (content & items & kw & Hc & Hp & Hk & Hi).
    apply init_fields in Hi as (_ & _ & _ & _ & _ & Hf & Hmd).
    exists content, items, kw. auto.
Qed.

Lemma image_pointer_stores_raw_witness :
  ImageAssetPointer.init (raw_image PNone (PDict [("a", PInt 1)]))
  = Valid (ImageAssetPointer.mk "image_asset_pointer"
             "file-service://file-abc" 2048 512 512
             PNone (PDict [("a", PInt 1)]))
  /\ is_str PNone = false
  /\ is_str (PDict [("a", PInt 1)]) = false
  /\ Message.init
       (raw_message (PStr "user")
          [("content_type", PStr "multimodal_text");
           ("parts",
            PList [PDict (raw_image PNone (PDict [("a", PInt 1)]))])])
     = Valid (message_with user
                (MessageContent.mk "multimodal_text"
                   (Some [MessageContent.PartImage
                            (ImageAssetPointer.mk "image_asset_pointer"
                               "file-service://file-abc" 2048 512 512
                               PNone (PDict [("a", PInt 1)]))])
                   None None))
  /\ ImageAssetPointer.init (raw_image (PInt 512) (PList [PStr "dalle"]))
     = Valid (ImageAssetPointer.mk "image_asset_pointer"
                "file-service://file-abc" 2048 512 512
                (PInt 512) (PList [PStr "dalle"]))
  /\ exists content items kw,
      dict_lookup "content"
        (raw_message (PStr "user")
           [("content_type", PStr "multimodal_text");
            ("parts",
             PList [PDict (raw_image PNone (PDict [("a", PInt 1)]))])])
      = Some (PDict content)
      /\ dict_lookup "parts" content = Some (PList items)
      /\ In (PDict kw) items
      /\ dict_lookup "fovea" kw = Some PNone
      /\ dict_lookup "metadata" kw = Some (PDict [("a", PInt 1)]).
Proof.
  destruct (@image_pointer_stores_raw json_scalars) as (Hone & Hparts).
  destruct (Hone (raw_image PNone (PDict [("a", PInt 1)]))
              (ImageAssetPointer.mk "image_asset_pointer"
                 "file-service://file-abc" 2048 512 512
                 PNone (PDict [("a", PInt 1)]))
              eq_refl)
    as (Hf & Hm & _).
  split; [reflexivity |].
  split; [exact (proj2 (Hf eq_refl)) |].
  split; [exact (proj2 (Hm [("a", PInt 1)] eq_refl)) |].
  split; [reflexivity |].
  split; [reflexivity |].
  exact (Hparts
           (raw_message (PStr "user")
              [("content_type", PStr "multimodal_text");
               ("parts",
                PList [PDict (raw_image PNone (PDict [("a", PInt 1)]))])])
           (message_with user
              (MessageContent.mk "multimodal_text"
                 (Some [MessageContent.PartImage
                          (ImageAssetPointer.mk "image_asset_pointer"
                             "file-service://file-abc" 2048 512 512
                             PNone (PDict [("a", PInt 1)]))])
                 None None))
           [MessageContent.PartImage
              (ImageAssetPointer.mk "image_asset_pointer"
                 "file-service://file-abc" 2048 512 512
                 PNone (PDict [("a", PInt 1)]))]
           (ImageAssetPointer.mk "image_asset_pointer"
              "file-service://file-abc" 2048 512 512
              PNone (PDict [("a", PInt 1)]))
           eq_refl eq_refl (or_introl eq_refl)).
Defined.

(** * Further properties *)

(** ** Dicts, continued *)

Lemma dict_lookup_none_keys (k : string) (d : dict) :
  dict_lookup k d = None <-> ~ In k (map fst d).
Proof.
  induction d as [|[k' v'] rest IH]; simpl.
  - tauto.
  - destruct (String.eqb_spec k k') as [->|Hne].
    + split; [discriminate | intros Hn; exfalso; apply Hn; now left].
    + rewrite IH. split.
      * intros Hn [He | Hin]; [now symmetry in He | contradiction].
      * intros Hn Hin. apply Hn. now right.
Qed.

Lemma dict_lookup_in (k : string) (v : pyval) (d : dict) :
  well_formed d -> In (k, v) d -> dict_lookup k d = Some v.
Proof.
  unfold well_formed.
  induction d as [|[k' v'] rest IH]; simpl; intros Hnd Hin; [contradiction |].
  inversion Hnd as [|? ? Hk' Hrest]; subst.
  destruct Hin as [[= -> ->] | Hin].
  - now rewrite String.eqb_refl.
  - destruct (String.eqb_spec k k') as [->|Hne]; [| auto].
    exfalso. apply Hk'. now apply (in_map fst) in Hin.
Qed.

(** Writing the value a key already has changes nothing. *)
Lemma dict_set_same_value (k : string) (v : pyval) (d : dict) :
  dict_lookup k d = Some v -> dict_set k v d = d.
Proof.
  induction d as [|[k' v'] rest IH]; simpl; [discriminate |].
  destruct (String.eqb_spec k k') as [->|Hne].
  - now intros [= ->].
  - intros Hl. now rewrite IH.
Qed.

(** [d[k] = v] keeps the keys in place and adds [k] last when it is new. *)
Lemma dict_set_keys (k : string) (v : pyval) (d : dict) :
  map fst (dict_set k v d)
  = match dict_lookup k d with
    | Some _ => map fst d
    | None => (map fst d ++ [k])%list
    end.
Proof.
  induction d as [|[k' v'] rest IH]; simpl; [reflexivity |].
  destruct (String.eqb_spec k k') as [->|Hne]; simpl; [reflexivity |].
  rewrite IH. now destruct (dict_lookup k rest).
Qed.

Lemma dict_set_well_formed (k : string) (v : pyval) (d : dict) :
  well_formed d -> well_formed (dict_set k v d).
Proof.
  unfold well_formed. intros Hnd. rewrite dict_set_keys.
  destruct (dict_lookup k d) eqn:E; [exact Hnd |].
  apply dict_lookup_none_keys in E.
  apply NoDup_app; [exact Hnd | repeat constructor; simpl; tauto |].
  intros x Hx [<- | []]. contradiction.
Qed.

(** [d.update(other)], key by key *)
Lemma dict_update_lookup (k : string) (other : dict) :
  well_formed other ->
  forall d,
    dict_lookup k (dict_update d other)
    = match dict_lookup k other with
      | Some v => Some v
      | None => dict_lookup k d
      end.
Proof.
  unfold dict_update, well_formed.
  induction other as [|[k1 v1] rest IH]; simpl; intros Hnd d; [reflexivity |].
  inversion Hnd as [|? ? Hk1 Hrest]; subst.
  rewrite (IH Hrest).
  destruct (String.eqb_spec k k1) as [->|Hne].
  - apply dict_lookup_none_keys in Hk1. rewrite Hk1.
    apply dict_lookup_set_same.
  - now rewrite dict_lookup_set_other.
Qed.

Lemma dict_update_well_formed (other d : dict) :
  well_formed d -> well_formed (dict_update d other).
Proof.
  unfold dict_update. revert d.
  induction other as [|[k1 v1] rest IH]; simpl; intros d Hd; [exact Hd |].
  apply IH. now apply dict_set_well_formed.
Qed.

(** An update that brings nothing new changes nothing. *)
Lemma dict_update_fixed (other : dict) :
  forall d,
    (forall k v, In (k, v) other -> dict_lookup k d = Some v) ->
    dict_update d other = d.
Proof.
  unfold dict_update.
  induction other as [|[k1 v1] rest IH]; simpl; intros d Hall; [reflexivity |].
  rewrite (dict_set_same_value k1 v1 d) by auto. apply IH. auto.
Qed.

(** ** [validate], continued *)

Lemma validated_metadata_kind (kw : dict) :
  is_dict (dict_get "metadata" (ImageAssetPointer.validate kw)) = false
  /\ is_none (dict_get "metadata" (ImageAssetPointer.validate kw)) = false.
Proof.
  unfold dict_get at 1 2. rewrite validate_metadata. unfold dict_get.
  destruct (dict_lookup "metadata" kw) as [v|]; simpl; [| auto].
  destruct (is_dict v) eqn:Hd; [auto |].
  destruct (is_none v) eqn:Hn; auto.
Qed.

Lemma validated_fovea_kind (kw : dict) :
  is_none (dict_get "fovea" (ImageAssetPointer.validate kw)) = false.
Proof.
  unfold dict_get at 1. rewrite validate_fovea. unfold dict_get.
  destruct (dict_lookup "fovea" kw) as [v|]; simpl; [| auto].
  destruct (is_none v) eqn:Hn; auto.
Qed.

(** X1: [validate] is idempotent: what it returns is already normalized,
    and running it again changes nothing. *)
Theorem validate_idempotent (kw : dict) :
  ImageAssetPointer.validate (ImageAssetPointer.validate kw)
  = ImageAssetPointer.validate kw.
Proof.
  destruct (validated_metadata_kind kw) as [Hd Hn].
  pose proof (validated_fovea_kind kw) as Hf.
  set (values := ImageAssetPointer.validate kw) in *.
  unfold ImageAssetPointer.validate at 1.
  now rewrite Hd, Hn, Hf.
Qed.

(** X2: [validate] touches the keys [metadata] and [fovea] only: every
    other key reads after it what it read before. *)
Theorem validate_frame (kw : dict) (k : string) :
  k <> "metadata" -> k <> "fovea" ->
  dict_lookup k (ImageAssetPointer.validate kw) = dict_lookup k kw.
Proof.
  intros Hm Hf. unfold ImageAssetPointer.validate.
  repeat match goal with
         | |- context [if ?b then _ else _] => destruct b
         end;
    rewrite ?dict_lookup_set_other by assumption; reflexivity.
Qed.

Lemma validate_frame_witness :
  dict_lookup "width"
    (ImageAssetPointer.validate (raw_image PNone (PDict [("a", PInt 1)])))
  = Some (PInt 512).
Proof.
  exact (validate_frame (raw_image PNone (PDict [("a", PInt 1)])) "width"
           ltac:(discriminate) ltac:(discriminate)).
Defined.

Lemma validate_keys_step (k : string) (v : pyval) (d : dict) :
  exists added,
    map fst (dict_set k v d) = (map fst d ++ added)%list
    /\ incl added [k].
Proof.
  rewrite dict_set_keys. destruct (dict_lookup k d).
  - exists []. rewrite app_nil_r. split; [reflexivity | intros x []].
  - exists [k]. split; [reflexivity | apply incl_refl].
Qed.

(** X3: [validate] removes no key and moves none: the keys of its result
    are the keys given, in the order given, followed at most by [metadata]
    and [fovea]; both are bound afterwards, and a dict without repeated keys
    stays one. *)
Theorem validate_keys (kw : dict) :
  (exists added,
      map fst (ImageAssetPointer.validate kw) = (map fst kw ++ added)%list
      /\ incl added ["metadata"; "fovea"])
  /\ dict_lookup "metadata" (ImageAssetPointer.validate kw) <> None
  /\ dict_lookup "fovea" (ImageAssetPointer.validate kw) <> None
  /\ (well_formed kw -> well_formed (ImageAssetPointer.validate kw)).
Proof.
  split; [| split; [| split]].
  - unfold ImageAssetPointer.validate.
    set (values := if is_dict (dict_get "metadata" kw) then _ else _).
    assert (H1 : exists added,
               map fst values = (map fst kw ++ added)%list
               /\ incl added ["metadata"]).
    { subst values.
      destruct (is_dict (dict_get "metadata" kw));
        [apply validate_keys_step |].
      destruct (is_none (dict_get "metadata" kw));
        [apply validate_keys_step |].
      exists []. rewrite app_nil_r. split; [reflexivity | intros x []]. }
    destruct H1 as (a1 & E1 & I1).
    destruct (is_none (dict_get "fovea" values)).
    + destruct (validate_keys_step "fovea" (PStr EmptyString) values)
        as (a2 & E2 & I2).
      exists (a1 ++ a2)%list. rewrite E2, E1, app_assoc.
      split; [reflexivity |].
      intros x Hx. apply in_app_or in Hx as [Hx | Hx].
      * apply I1 in Hx. destruct Hx as [<- | []]. now left.
      * apply I2 in Hx. destruct Hx as [<- | []]. right. now left.
    + exists a1. split; [exact E1 |].
      intros x Hx. apply I1 in Hx. destruct Hx as [<- | []]. now left.
  - pose proof (validated_metadata_kind kw) as [_ Hn].
    unfold dict_get in Hn.
    destruct (dict_lookup "metadata" (ImageAssetPointer.validate kw));
      [discriminate | discriminate].
  - pose proof (validated_fovea_kind kw) as Hn.
    unfold dict_get in Hn.
    destruct (dict_lookup "fovea" (ImageAssetPointer.validate kw));
      [discriminate | discriminate].
  - intros Hwf. unfold ImageAssetPointer.validate.
    repeat match goal with
           | |- context [if ?b then _ else _] => destruct b
           end;
      repeat apply dict_set_well_formed; exact Hwf.
Qed.

Lemma validate_keys_witness :
  well_formed
    (ImageAssetPointer.validate
       [("content_type", PStr "image_asset_pointer"); ("width", PInt 512)]).
Proof.
  apply (proj2 (proj2 (proj2
           (validate_keys
              [("content_type", PStr "image_asset_pointer");
               ("width", PInt 512)])))).
  unfold well_formed. simpl.
  repeat constructor; simpl; intuition discriminate.
Defined.

(** ** The shared configuration, continued *)

(** X4: how [header] fails.  Without an [author_headers] entry in the
    configuration it raises [KeyError] on that key; with an entry that is a
    mapping without the message's role it raises [KeyError] on the role;
    with an entry that is no mapping it raises [TypeError]. *)
Theorem header_failures `{Scalars} (configs : dict) (m : Message.t) :
  (dict_lookup "author_headers" configs = None ->
   Message.header configs m = Raise (KeyError "author_headers"))
  /\ (forall headers,
         dict_lookup "author_headers" configs = Some (PDict headers) ->
         dict_lookup (role_name (MessageAuthor.role (Message.author m)))
           headers = None ->
         Message.header configs m
         = Raise (KeyError
                    (role_name (MessageAuthor.role (Message.author m)))))
  /\ (forall v,
         dict_lookup "author_headers" configs = Some v ->
         is_dict v = false ->
         Message.header configs m = Raise TypeError).
Proof.
  unfold Message.header. simpl. split; [| split].
  - now intros ->.
  - intros headers -> Hr. simpl. now rewrite Hr.
  - intros v -> Hd. destruct v; try discriminate; reflexivity.
Qed.

Lemma header_failures_witness :
  Message.header [("user", PStr "### You")]
    (message_with user (MessageContent.mk "text" (Some []) None None))
  = Raise (KeyError "author_headers")
  /\ Message.header [("author_headers", PDict [("user", PStr "### You")])]
       (message_with tool (MessageContent.mk "text" (Some []) None None))
     = Raise (KeyError "tool")
  /\ Message.header [("author_headers", PStr "### You")]
       (message_with user (MessageContent.mk "text" (Some []) None None))
     = Raise TypeError.
Proof.
  split; [| split].
  - exact (proj1
             (header_failures [("user", PStr "### You")]
                (message_with user
                   (MessageContent.mk "text" (Some []) None None)))
             eq_refl).
  - exact (proj1 (proj2
             (header_failures
                [("author_headers", PDict [("user", PStr "### You")])]
                (message_with tool
                   (MessageContent.mk "text" (Some []) None None))))
             [("user", PStr "### You")] eq_refl eq_refl).
  - exact (proj2 (proj2
             (header_failures [("author_headers", PStr "### You")]
                (message_with user
                   (MessageContent.mk "text" (Some []) None None))))
             (PStr "### You") eq_refl eq_refl).
Defined.

(** X5: [update_configs] merges at the top level.  After it, a key of the
    new mapping reads its new value and every other key of the
    configuration reads what it read before; a configuration without
    repeated keys stays one. *)
Theorem update_configs_lookup (configs new : dict) (k : string) :
  well_formed new ->
  dict_lookup k (Message.update_configs configs new)
  = match dict_lookup k new with
    | Some v => Some v
    | None => dict_lookup k configs
    end
  /\ (well_formed configs ->
      well_formed (Message.update_configs configs new)).
Proof.
  intros Hnew. unfold Message.update_configs. split.
  - now apply dict_update_lookup.
  - apply dict_update_well_formed.
Qed.

Lemma update_configs_lookup_witness :
  dict_lookup "author_headers"
    (Message.update_configs sample_configs [("user", PStr "### You")])
  = dict_lookup "author_headers" sample_configs
  /\ dict_lookup "user"
       (Message.update_configs sample_configs [("user", PStr "### You")])
     = Some (PStr "### You").
Proof.
  split.
  - exact (proj1
             (update_configs_lookup sample_configs [("user", PStr "### You")]
                "author_headers"
                ltac:(unfold well_formed; simpl; repeat constructor;
                      simpl; tauto))).
  - exact (proj1
             (update_configs_lookup sample_configs [("user", PStr "### You")]
                "user"
                ltac:(unfold well_formed; simpl; repeat constructor;
                      simpl; tauto))).
Defined.

(** X6: the merge is shallow.  An update with an [author_headers] mapping
    replaces the whole mapping: a role it leaves out has no header
    afterwards, whatever the configuration held for it before, and [header]
    raises [KeyError] for a message of that role. *)
Theorem update_configs_shallow `{Scalars} (configs headers : dict)
  (m : Message.t) :
  dict_lookup (role_name (MessageAuthor.role (Message.author m))) headers
  = None ->
  Message.header
    (Message.update_configs configs [("author_headers", PDict headers)]) m
  = Raise (KeyError (role_name (MessageAuthor.role (Message.author m)))).
Proof.
  intros Hr.
  rewrite (header_reads_author_headers _ headers).
  - simpl. now rewrite Hr.
  - unfold Message.update_configs, dict_update. simpl.
    apply dict_lookup_set_same.
Qed.

Lemma update_configs_shallow_witness :
  Message.header sample_configs
    (message_with assistant (MessageContent.mk "text" (Some []) None None))
  = Return (PStr "# ChatGPT")
  /\ Message.header
       (Message.update_configs sample_configs
          [("author_headers", PDict [("user", PStr "### You")])])
       (message_with assistant (MessageContent.mk "text" (Some []) None None))
     = Raise (KeyError "assistant").
Proof.
  split; [reflexivity |].
  exact (update_configs_shallow sample_configs [("user", PStr "### You")]
           (message_with assistant
              (MessageContent.mk "text" (Some []) None None))
           eq_refl).
Defined.

(** X7: updating twice with the same mapping is updating once. *)
Theorem update_configs_idempotent (configs new : dict) :
  well_formed new ->
  Message.update_configs (Message.update_configs configs new) new
  = Message.update_configs configs new.
Proof.
  intros Hnew. unfold Message.update_configs.
  apply dict_update_fixed. intros k v Hin.
  rewrite (dict_update_lookup k new Hnew).
  now rewrite (dict_lookup_in k v new Hnew Hin).
Qed.

Lemma update_configs_idempotent_witness :
  Message.update_configs
    (Message.update_configs sample_configs [("user", PStr "### You")])
    [("user", PStr "### You")]
  = Message.update_configs sample_configs [("user", PStr "### You")].
Proof.
  exact (update_configs_idempotent sample_configs [("user", PStr "### You")]
           ltac:(unfold well_formed; simpl; repeat constructor;
                 simpl; tauto)).
Defined.

(** X8: of two updates of [author_headers] the later one decides: [header]
    reads the second mapping and nothing of the first. *)
Theorem update_configs_last_wins `{Scalars} (configs first second : dict)
  (m : Message.t) :
  Message.header
    (Message.update_configs
       (Message.update_configs configs [("author_headers", PDict first)])
       [("author_headers", PDict second)]) m
  = subscript (PDict second)
      (role_name (MessageAuthor.role (Message.author m)))
  /\ Message.header
       (Message.update_configs
          (Message.update_configs configs [("author_headers", PDict first)])
          [("author_headers", PDict second)]) m
     = Message.header
         (Message.update_configs configs [("author_headers", PDict second)])
         m.
Proof.
  assert (Hl : forall c,
             dict_lookup "author_headers"
               (Message.update_configs c [("author_headers", PDict second)])
             = Some (PDict second)).
  { intros c. unfold Message.update_configs, dict_update. simpl.
    apply dict_lookup_set_same. }
  rewrite !(header_reads_author_headers _ second) by apply Hl.
  split; reflexivity.
Qed.

(** ** Construction, continued *)

Lemma Forall2_nth_error_l {A B : Type} (R : A -> B -> Prop)
  (xs : list A) (ys : list B) :
  Forall2 R xs ys ->
  forall i x, nth_error xs i = Some x ->
              exists y, nth_error ys i = Some y /\ R x y.
Proof.
  induction 1 as [|x0 y0 xs ys Hxy _ IH]; intros i x Hn.
  - destruct i; discriminate.
  - destruct i as [|i]; simpl in *.
    + injection Hn as <-. eauto.
    + eauto.
Qed.

(** A constructed message has a constructed author. *)
Lemma message_author_valid `{Scalars} (raw : dict) (m : Message.t) :
  Message.init raw = Valid m ->
  exists author,
    dict_lookup "author" raw = Some (PDict author)
    /\ MessageAuthor.init author = Valid (Message.author m).
Proof.
  unfold Message.init. intros Hi. split_ap Hi.
  apply required_valid_inv in Hfield7 as (v & Hl & Hv).
  apply model_field_valid_inv in Hv as (d & -> & Hd). eauto.
Qed.

Lemma constructed_parts `{Scalars} (raw : dict) (m : Message.t) :
  Message.init raw = Valid m ->
  exists ps, MessageContent.parts (Message.content m) = Some ps.
Proof.
  intros Hm. destruct (message_content_valid raw m Hm) as (content & _ & Hc).
  destruct (content_parts_valid content _ Hc)
    as [[_ Hnil] | (items & ps & _ & Hps & _)]; eauto.
Qed.

(** X9: a constructed message never has [parts] null, so on a constructed
    message [text] never leaves its first branch: it returns the string
    form of the first part or raises [IndexError]; it never raises the
    [ValueError] of the last branch, whatever [text] and [result] hold. *)
Theorem constructed_text_first_branch `{Scalars}
  (code_block : string -> string)
  (model_str : ImageAssetPointer.t -> string) (raw : dict) (m : Message.t) :
  Message.init raw = Valid m ->
  MessageContent.parts (Message.content m) <> None
  /\ (forall msg,
         Message.text code_block model_str m <> Raise (ValueError msg))
  /\ (Message.text code_block model_str m
      = Raise (IndexError "list index out of range")
      \/ exists p rest,
          MessageContent.parts (Message.content m) = Some (p :: rest)
          /\ Message.text code_block model_str m
             = Return (Message.str_part model_str p)).
Proof.
  intros Hm. destruct (constructed_parts raw m Hm) as (ps & Hps).
  unfold Message.text. rewrite Hps.
  split; [discriminate | split].
  - intros msg. destruct ps; discriminate.
  - destruct ps as [|p rest]; [now left |].
    right. exists p, rest. split; reflexivity.
Qed.

Lemma constructed_text_first_branch_witness :
  MessageContent.parts
    (Message.content
       (message_with assistant
          (MessageContent.mk "code" (Some []) (Some "print(1)") None)))
  <> None
  /\ forall msg,
      Message.text fenced image_tag
        (message_with assistant
           (MessageContent.mk "code" (Some []) (Some "print(1)") None))
      <> Raise (ValueError msg).
Proof.
  split.
  - exact (proj1
             (constructed_text_first_branch fenced image_tag
                (raw_message (PStr "assistant")
                   [("content_type", PStr "code"); ("text", PStr "print(1)")])
                (message_with assistant
                   (MessageContent.mk "code" (Some []) (Some "print(1)") None))
                eq_refl)).
  - exact (proj1 (proj2
             (constructed_text_first_branch fenced image_tag
                (raw_message (PStr "assistant")
                   [("content_type", PStr "code"); ("text", PStr "print(1)")])
                (message_with assistant
                   (MessageContent.mk "code" (Some []) (Some "print(1)") None))
                eq_refl))).
Defined.

(** X10: a [parts] entry that is present but no list, [null] included, is
    not replaced by the default: the construction of the message fails with
    a list error at [content.parts]. *)
Theorem parts_not_a_list `{Scalars} (raw content : dict) (v : pyval) :
  dict_lookup "content" raw = Some (PDict content) ->
  dict_lookup "parts" content = Some v ->
  (forall items, v <> PList items) ->
  exists errs,
    Message.init raw = Invalid errs
    /\ In (mk_error [Key "content"; Key "parts"] list_type) errs.
Proof.
  intros Hc Hp Hv.
  assert (He : In (mk_error [Key "content"; Key "parts"] list_type)
                 (errors_of (Message.init raw))).
  { apply (message_content_errors raw content
             (mk_error [Key "parts"] list_type) Hc).
    apply (content_parts_errors content v (mk_error [] list_type) Hp).
    destruct v; try (now left). now destruct (Hv items). }
  exists (errors_of (Message.init raw)). split; [| exact He].
  exact (invalid_of_error _ _ He).
Qed.

Lemma parts_not_a_list_witness :
  exists errs,
    Message.init
      (raw_message (PStr "user")
         [("content_type", PStr "text"); ("parts", PNone)])
    = Invalid errs
    /\ In (mk_error [Key "content"; Key "parts"] list_type) errs.
Proof.
  exact (parts_not_a_list
           (raw_message (PStr "user")
              [("content_type", PStr "text"); ("parts", PNone)])
           [("content_type", PStr "text"); ("parts", PNone)]
           PNone eq_refl eq_refl ltac:(discriminate)).
Defined.

(** X11: construction keeps [parts] element for element: the record has as
    many parts as the raw list, a raw string sits at the same index
    unchanged, and a raw mapping is replaced at its index by the image
    pointer constructed from it, which stores the mapping's [fovea] and
    [metadata] as given. *)
Theorem parts_positions `{Scalars} (content : dict) (c : MessageContent.t)
  (items : list pyval) :
  MessageContent.init content = Valid c ->
  dict_lookup "parts" content = Some (PList items) ->
  exists ps,
    MessageContent.parts c = Some ps
    /\ length ps = length items
    /\ (forall i s, nth_error items i = Some (PStr s) ->
                    nth_error ps i = Some (MessageContent.PartStr s))
    /\ (forall i kw, nth_error items i = Some (PDict kw) ->
                     exists img,
                       nth_error ps i = Some (MessageContent.PartImage img)
                       /\ ImageAssetPointer.init kw = Valid img
                       /\ dict_lookup "fovea" kw
                          = Some (ImageAssetPointer.fovea img)
                       /\ dict_lookup "metadata" kw
                          = Some (ImageAssetPointer.metadata img)).
Proof.
  intros Hc Hp.
  destruct (content_parts_valid content c Hc)
    as [[Hnone _] | (items' & ps & Hl & Hps & Hall)]; [congruence |].
  rewrite Hp in Hl. injection Hl as <-.
  exists ps. split; [exact Hps |]. split; [| split].
  - symmetry. exact (Forall2_length Hall).
  - intros i s Hn.
    destruct (Forall2_nth_error_l _ _ _ Hall i _ Hn) as (p & Hnp & Hv).
    simpl in Hv. now injection Hv as <-.
  - intros i kw Hn.
    destruct (Forall2_nth_error_l _ _ _ Hall i _ Hn) as (p & Hnp & Hv).
    simpl in Hv. apply fmap_valid_inv in Hv as (img & Hi & ->).
    exists img. split; [exact Hnp | split; [exact Hi |]].
    apply init_fields in Hi as (_ & _ & _ & _ & _ & Hf & Hmd). auto.
Qed.

Lemma parts_positions_witness :
  exists ps,
    MessageContent.parts
      (MessageContent.mk "multimodal_text"
         (Some [MessageContent.PartImage
                  (ImageAssetPointer.mk "image_asset_pointer"
                     "file-service://file-abc" 2048 512 512 PNone PNone);
                MessageContent.PartStr "what is this?"])
         None None)
    = Some ps
    /\ length ps = 2
    /\ (forall i s,
           nth_error [PDict (raw_image PNone PNone); PStr "what is this?"] i
           = Some (PStr s) ->
           nth_error ps i = Some (MessageContent.PartStr s))
    /\ (forall i kw,
           nth_error [PDict (raw_image PNone PNone); PStr "what is this?"] i
           = Some (PDict kw) ->
           exists img,
             nth_error ps i = Some (MessageContent.PartImage img)
             /\ ImageAssetPointer.init kw = Valid img
             /\ dict_lookup "fovea" kw = Some (ImageAssetPointer.fovea img)
             /\ dict_lookup "metadata" kw
                = Some (ImageAssetPointer.metadata img)).
Proof.
  exact (@parts_positions json_scalars
           [("content_type", PStr "multimodal_text");
            ("parts",
             PList [PDict (raw_image PNone PNone); PStr "what is this?"])]
           (MessageContent.mk "multimodal_text"
              (Some [MessageContent.PartImage
                       (ImageAssetPointer.mk "image_asset_pointer"
                          "file-service://file-abc" 2048 512 512 PNone PNone);
                     MessageContent.PartStr "what is this?"])
              None None)
           [PDict (raw_image PNone PNone); PStr "what is this?"]
           eq_refl eq_refl).
Defined.

Lemma string_items_valid `{Scalars} (ss : list string) :
  forall i,
    each_item_from MessageContent.validate_parts i (map PStr ss)
    = Valid (map MessageContent.PartStr ss).
Proof.
  induction ss as [|s rest IH]; intros i; simpl; [reflexivity |].
  now rewrite IH.
Qed.

(** X12: a content whose [parts] are all strings cannot fail on [parts]:
    with [content_type] a string and [text] and [result] strings, null or
    left out, it is constructed, and its parts are those strings, in order
    and unchanged. *)
Theorem string_parts_construct `{Scalars} (content : dict) (ct : string)
  (ss : list string) :
  dict_lookup "content_type" content = Some (PStr ct) ->
  dict_lookup "parts" content = Some (PList (map PStr ss)) ->
  nullable_str (dict_lookup "text" content) = true ->
  nullable_str (dict_lookup "result" content) = true ->
  exists c,
    MessageContent.init content = Valid c
    /\ MessageContent.content_type c = ct
    /\ MessageContent.parts c = Some (map MessageContent.PartStr ss).
Proof.
  intros Hct Hp Ht Hr.
  destruct (optional_str_accepts "text" content Ht) as (t & Htext).
  destruct (optional_str_accepts "result" content Hr) as (r & Hres).
  exists (MessageContent.mk ct (Some (map MessageContent.PartStr ss)) t r).
  unfold MessageContent.init, required, with_default at 1.
  rewrite Hct, Hp, Htext, Hres. simpl.
  rewrite string_items_valid. simpl. auto.
Qed.

Lemma string_parts_construct_witness :
  exists c,
    MessageContent.init
      [("content_type", PStr "text");
       ("parts", PList (map PStr ["hello"; "world"]))]
    = Valid c
    /\ MessageContent.content_type c = "text"
    /\ MessageContent.parts c
       = Some (map MessageContent.PartStr ["hello"; "world"]).
Proof.
  exact (@string_parts_construct json_scalars
           [("content_type", PStr "text");
            ("parts", PList (map PStr ["hello"; "world"]))]
           "text" ["hello"; "world"] eq_refl eq_refl eq_refl eq_refl).
Defined.

(** X13: a mapping among the raw [parts] that does not make an image
    pointer makes the message fail: each error of the image pointer is
    reported, below [content.parts[i]]. *)
Theorem image_part_errors `{Scalars} (raw content kw : dict)
  (items : list pyval) (i : nat) (e : line_error) :
  dict_lookup "content" raw = Some (PDict content) ->
  dict_lookup "parts" content = Some (PList items) ->
  nth_error items i = Some (PDict kw) ->
  In e (errors_of (ImageAssetPointer.init kw)) ->
  exists errs,
    Message.init raw = Invalid errs
    /\ In (mk_error (Key "content" :: Key "parts" :: Idx i :: loc e) (kind e))
         errs.
Proof.
  intros Hc Hp Hn He.
  assert (Hin : In (mk_error
                      (Key "content" :: Key "parts" :: Idx i :: loc e)
                      (kind e))
                  (errors_of (Message.init raw))).
  { apply (message_content_errors raw content
             (mk_error (Key "parts" :: Idx i :: loc e) (kind e)) Hc).
    apply (content_parts_errors content (PList items)
             (mk_error (Idx i :: loc e) (kind e)) Hp).
    simpl.
    apply (each_item_errors MessageContent.validate_parts items 0 i
             (PDict kw) e Hn).
    simpl. now rewrite errors_of_fmap. }
  exists (errors_of (Message.init raw)). split; [| exact Hin].
  exact (invalid_of_error _ _ Hin).
Qed.

Lemma image_part_errors_witness :
  exists errs,
    Message.init
      (raw_message (PStr "user")
         [("content_type", PStr "multimodal_text");
          ("parts",
           PList [PStr "look";
                  PDict [("content_type", PStr "image_asset_pointer");
                         ("asset_pointer", PStr "file-service://file-abc");
                         ("size_bytes", PInt 2048); ("width", PInt 512);
                         ("height", PInt 512); ("metadata", PNone)]])])
    = Invalid errs
    /\ In (mk_error [Key "content"; Key "parts"; Idx 1; Key "fovea"] missing)
         errs.
Proof.
  exact (@image_part_errors json_scalars
           (raw_message (PStr "user")
              [("content_type", PStr "multimodal_text");
               ("parts",
                PList [PStr "look";
                       PDict [("content_type", PStr "image_asset_pointer");
                              ("asset_pointer",
                               PStr "file-service://file-abc");
                              ("size_bytes", PInt 2048); ("width", PInt 512);
                              ("height", PInt 512); ("metadata", PNone)]])])
           [("content_type", PStr "multimodal_text");
            ("parts",
             PList [PStr "look";
                    PDict [("content_type", PStr "image_asset_pointer");
                           ("asset_pointer", PStr "file-service://file-abc");
                           ("size_bytes", PInt 2048); ("width", PInt 512);
                           ("height", PInt 512); ("metadata", PNone)]])]
           [("content_type", PStr "image_asset_pointer");
            ("asset_pointer", PStr "file-service://file-abc");
            ("size_bytes", PInt 2048); ("width", PInt 512);
            ("height", PInt 512); ("metadata", PNone)]
           [PStr "look";
            PDict [("content_type", PStr "image_asset_pointer");
                   ("asset_pointer", PStr "file-service://file-abc");
                   ("size_bytes", PInt 2048); ("width", PInt 512);
                   ("height", PInt 512); ("metadata", PNone)]]
           1 (mk_error [Key "fovea"] missing)
           eq_refl eq_refl eq_refl (or_introl eq_refl)).
Defined.

(** X14: the role of a constructed message is the role the raw author
    gave: the raw [author.role] is the string that names the record's
    role, letter for letter. *)
Theorem constructed_role `{Scalars} (raw : dict) (m : Message.t) :
  Message.init raw = Valid m ->
  exists author,
    dict_lookup "author" raw = Some (PDict author)
    /\ dict_lookup "role" author
       = Some (PStr (role_name (MessageAuthor.role (Message.author m)))).
Proof.
  intros Hm.
  destruct (message_author_valid raw m Hm) as (author & Ha & Hinit).
  exists author. split; [exact Ha |].
  unfold MessageAuthor.init in Hinit. split_ap Hinit.
  apply required_valid_inv in Hfield1 as (v & Hl & Hv).
  rewrite Hl. simpl.
  destruct v as [| | | |s| |]; simpl in Hv; try discriminate.
  destruct (role_of_string s) as [r|] eqn:E; simpl in Hv; [| discriminate].
  injection Hv as <-. apply role_of_string_some in E. now subst s.
Qed.

Lemma constructed_role_witness :
  exists author,
    dict_lookup "author"
      (raw_message (PStr "tool")
         [("content_type", PStr "text"); ("parts", PList [PStr "hello"])])
    = Some (PDict author)
    /\ dict_lookup "role" author = Some (PStr "tool").
Proof.
  exact (@constructed_role json_scalars
           (raw_message (PStr "tool")
              [("content_type", PStr "text"); ("parts", PList [PStr "hello"])])
           (message_with tool
              (MessageContent.mk "text"
                 (Some [MessageContent.PartStr "hello"]) None None))
           eq_refl).
Defined.

(** X15: each field of [Message] declared without a default is required: a
    raw message that lacks [id], [author], [content], [status], [weight],
    [metadata] or [recipient] fails to construct, with a missing-field
    error at that field. *)
Theorem required_field_missing `{Scalars} (raw : dict) (name : string) :
  In name message_required ->
  dict_lookup name raw = None ->
  exists errs,
    Message.init raw = Invalid errs
    /\ In (mk_error [Key name] missing) errs.
Proof.
  intros Hname Hl.
  assert (He : In (mk_error [Key name] missing)
                 (errors_of (Message.init raw))).
  { unfold Message.init. field_errors.
    unfold message_required in Hname. simpl in Hname.
    repeat destruct Hname as [<- | Hname]; try contradiction;
      rewrite (required_errors_absent _ _ _ Hl); simpl; tauto. }
  exists (errors_of (Message.init raw)). split; [| exact He].
  exact (invalid_of_error _ _ He).
Qed.

Lemma required_field_missing_witness :
  exists errs,
    Message.init
      [("id", PStr "msg-1");
       ("author", PDict [("role", PStr "user"); ("metadata", PDict [])]);
       ("content", PDict [("content_type", PStr "text")]);
       ("status", PStr "finished_successfully");
       ("metadata", PDict []);
       ("recipient", PStr "all")]
    = Invalid errs
    /\ In (mk_error [Key "weight"] missing) errs.
Proof.
  exact (@required_field_missing json_scalars
           [("id", PStr "msg-1");
            ("author", PDict [("role", PStr "user"); ("metadata", PDict [])]);
            ("content", PDict [("content_type", PStr "text")]);
            ("status", PStr "finished_successfully");
            ("metadata", PDict []);
            ("recipient", PStr "all")]
           "weight"
           ltac:(unfold message_required; simpl; tauto) eq_refl).
Defined.

Ltac declared_key :=
  unfold message_declared, message_required, message_optional; simpl;
  repeat (first [left; reflexivity | right]).

(** X16: construction reads the declared keys only: two raw messages that
    agree on the ten keys [Message] declares construct alike, whatever
    other keys they carry. *)
Theorem undeclared_keys_ignored `{Scalars} (raw raw' : dict) :
  (forall k, In k message_declared ->
             dict_lookup k raw = dict_lookup k raw') ->
  Message.init raw = Message.init raw'.
Proof.
  intros Hagree. unfold Message.init, required, with_default.
  repeat match goal with
         | |- context [dict_lookup ?k raw] =>
             rewrite (Hagree k) by declared_key
         end.
  reflexivity.
Qed.

Lemma undeclared_keys_ignored_witness :
  Message.init
    (("channel", PNone)
       :: raw_message (PStr "user")
            [("content_type", PStr "text"); ("parts", PList [PStr "hello"])])
  = Message.init
      (raw_message (PStr "user")
         [("content_type", PStr "text"); ("parts", PList [PStr "hello"])]).
Proof.
  apply (@undeclared_keys_ignored json_scalars).
  intros k Hk. unfold message_declared, message_required, message_optional in Hk.
  simpl in Hk.
  repeat destruct Hk as [<- | Hk]; try reflexivity. contradiction.
Defined.

(** X17: for [create_time], [update_time] and [end_turn] an explicit null
    is the same as leaving the key out: two raw messages that differ only
    in that construct alike. *)
Theorem optional_null_is_absent `{Scalars} (raw raw' : dict)
  (name : string) :
  In name message_optional ->
  dict_lookup name raw = Some PNone ->
  dict_lookup name raw' = None ->
  (forall k, k <> name -> dict_lookup k raw = dict_lookup k raw') ->
  Message.init raw = Message.init raw'.
Proof.
  intros Hname Hnull Habsent Hother.
  unfold message_optional in Hname. simpl in Hname.
  repeat destruct Hname as [<- | Hname]; try contradiction;
    unfold Message.init, required, with_default;
    rewrite Hnull, Habsent;
    repeat match goal with
           | |- context [dict_lookup ?k raw] =>
               rewrite (Hother k) by discriminate
           end;
    reflexivity.
Qed.

Lemma optional_null_is_absent_witness :
  Message.init
    (("update_time", PNone)
       :: raw_message (PStr "user")
            [("content_type", PStr "text"); ("parts", PList [PStr "hello"])])
  = Message.init
      (raw_message (PStr "user")
         [("content_type", PStr "text"); ("parts", PList [PStr "hello"])]).
Proof.
  apply (@optional_null_is_absent json_scalars _ _ "update_time").
  - unfold message_optional. simpl. tauto.
  - reflexivity.
  - reflexivity.
  - intros k Hk. simpl.
    destruct (String.eqb_spec k "update_time"); [contradiction | reflexivity].
Defined.

(** X18: from raw input to [text]: a message constructed from a raw
    content whose first part is a string has that string as its text; one
    whose first part is a mapping has the string form of the image pointer
    constructed from it, which stores the mapping's [fovea] and [metadata]
    as given.  The role, the other parts and the [text] and [result] fields
    play no part. *)
Theorem text_of_first_raw_part `{Scalars} (code_block : string -> string)
  (model_str : ImageAssetPointer.t -> string) (raw content : dict)
  (first : pyval) (rest : list pyval) (m : Message.t) :
  dict_lookup "content" raw = Some (PDict content) ->
  dict_lookup "parts" content = Some (PList (first :: rest)) ->
  Message.init raw = Valid m ->
  (forall s, first = PStr s ->
             Message.text code_block model_str m = Return s)
  /\ (forall kw, first = PDict kw ->
                 exists img,
                   ImageAssetPointer.init kw = Valid img
                   /\ dict_lookup "fovea" kw
                      = Some (ImageAssetPointer.fovea img)
                   /\ dict_lookup "metadata" kw
                      = Some (ImageAssetPointer.metadata img)
                   /\ Message.text code_block model_str m
                      = Return (model_str img)).
Proof.
  intros Hc Hp Hm.
  destruct (message_content_valid raw m Hm) as (content' & Hc' & Hinit).
  rewrite Hc in Hc'. injection Hc' as <-.
  destruct (content_parts_valid content _ Hinit)
    as [[Hnone _] | (items & ps & Hl & Hps & Hall)]; [congruence |].
  rewrite Hp in Hl. injection Hl as <-.
  inversion Hall as [|v p items' ps' Hv Hrest]; subst.
  unfold Message.text. rewrite Hps. simpl. split.
  - intros s ->. simpl in Hv. now injection Hv as <-.
  - intros kw ->. simpl in Hv.
    apply fmap_valid_inv in Hv as (img & Hi & ->).
    exists img. split; [exact Hi |].
    apply init_fields in Hi as (_ & _ & _ & _ & _ & Hf & Hmd). auto.
Qed.

Lemma text_of_first_raw_part_witness :
  Message.text fenced image_tag
    (message_with tool
       (MessageContent.mk "text"
          (Some [MessageContent.PartStr "hello"; MessageContent.PartStr "more"])
          None (Some "42")))
  = Return "hello"
  /\ exists img,
      ImageAssetPointer.init (raw_image PNone (PDict [("a", PInt 1)]))
      = Valid img
      /\ dict_lookup "fovea" (raw_image PNone (PDict [("a", PInt 1)]))
         = Some (ImageAssetPointer.fovea img)
      /\ dict_lookup "metadata" (raw_image PNone (PDict [("a", PInt 1)]))
         = Some (ImageAssetPointer.metadata img)
      /\ Message.text fenced image_tag
           (message_with user
              (MessageContent.mk "multimodal_text"
                 (Some [MessageContent.PartImage
                          (ImageAssetPointer.mk "image_asset_pointer"
                             "file-service://file-abc" 2048 512 512
                             PNone (PDict [("a", PInt 1)]));
                        MessageContent.PartStr "what is this?"])
                 None None))
         = Return (image_tag img).
Proof.
  split.
  - exact (proj1
             (@text_of_first_raw_part json_scalars fenced image_tag
                (raw_message (PStr "tool")
                   [("content_type", PStr "text");
                    ("parts", PList [PStr "hello"; PStr "more"]);
                    ("result", PStr "42")])
                [("content_type", PStr "text");
                 ("parts", PList [PStr "hello"; PStr "more"]);
                 ("result", PStr "42")]
                (PStr "hello") [PStr "more"]
                (message_with tool
                   (MessageContent.mk "text"
                      (Some [MessageContent.PartStr "hello";
                             MessageContent.PartStr "more"])
                      None (Some "42")))
                eq_refl eq_refl eq_refl)
             "hello" eq_refl).
  - exact (proj2
             (@text_of_first_raw_part json_scalars fenced image_tag
                (raw_message (PStr "user")
                   [("content_type", PStr "multimodal_text");
                    ("parts",
                     PList [PDict (raw_image PNone (PDict [("a", PInt 1)]));
                            PStr "what is this?"])])
                [("content_type", PStr "multimodal_text");
                 ("parts",
                  PList [PDict (raw_image PNone (PDict [("a", PInt 1)]));
                         PStr "what is this?"])]
                (PDict (raw_image PNone (PDict [("a", PInt 1)])))
                [PStr "what is this?"]
                (message_with user
                   (MessageContent.mk "multimodal_text"
                      (Some [MessageContent.PartImage
                               (ImageAssetPointer.mk "image_asset_pointer"
                                  "file-service://file-abc" 2048 512 512
                                  PNone (PDict [("a", PInt 1)]));
                             MessageContent.PartStr "what is this?"])
                      None None))
                eq_refl eq_refl eq_refl)
             (raw_image PNone (PDict [("a", PInt 1)])) eq_refl).
Defined.

Lemma optional_errors_present {A : Type} (name : string)
  (check : pyval -> validated A) (d : dict) (e : line_error) :
  In e (errors_of (with_default name None (optional check) d)) ->
  at_field name e
  /\ exists v, dict_lookup name d = Some v /\ is_none v = false.
Proof.
  intros He. split; [now apply with_default_errors_head in He |].
  unfold with_default in He.
  destruct (dict_lookup name d) as [v|]; [| contradiction].
  exists v. split; [reflexivity |].
  destruct v; try reflexivity. contradiction.
Qed.

(** X19: every field of [MessageMetadata] is optional: its construction
    never fails on a key that is left out or null.  Each of its errors sits
    at one of the four fields, and that field is present and not null in
    the raw mapping. *)
Theorem metadata_errors_present `{Scalars} (raw : dict) (e : line_error) :
  In e (errors_of (MessageMetadata.init raw)) ->
  exists name v,
    In name ["model_slug"; "invoked_plugin"; "is_user_system_message";
             "user_context_message_data"]
    /\ at_field name e
    /\ dict_lookup name raw = Some v
    /\ is_none v = false.
Proof.
  unfold MessageMetadata.init. rewrite !errors_of_ap. cbn [errors_of app].
  rewrite !in_app_iff.
  intros [[[He | He] | He] | He];
    apply optional_errors_present in He as (Hat & v & Hl & Hn);
    [exists "model_slug" | exists "invoked_plugin"
     | exists "is_user_system_message" | exists "user_context_message_data"];
    exists v; simpl; tauto.
Qed.

Lemma metadata_errors_present_witness :
  exists name v,
    In name ["model_slug"; "invoked_plugin"; "is_user_system_message";
             "user_context_message_data"]
    /\ at_field name (mk_error [Key "model_slug"] string_type)
    /\ dict_lookup name [("model_slug", PInt 4); ("invoked_plugin", PNone)]
       = Some v
    /\ is_none v = false.
Proof.
  exact (@metadata_errors_present json_scalars
           [("model_slug", PInt 4); ("invoked_plugin", PNone)]
           (mk_error [Key "model_slug"] string_type)
           (or_introl eq_refl)).
Defined.

(** X20: with a configuration whose [author_headers] mapping binds all
    four roles, [header] returns for every message: the four roles are all
    there are. *)
Theorem header_total `{Scalars} (configs headers : dict) (m : Message.t) :
  dict_lookup "author_headers" configs = Some (PDict headers) ->
  (forall r, dict_lookup (role_name r) headers <> None) ->
  exists v,
    Message.header configs m = Return v
    /\ dict_lookup (role_name (MessageAuthor.role (Message.author m))) headers
       = Some v.
Proof.
  intros Hc Hall. rewrite (header_reads_author_headers _ headers m Hc). simpl.
  specialize (Hall (MessageAuthor.role (Message.author m))).
  destruct (dict_lookup _ headers) as [v|]; [eauto | contradiction].
Qed.

Lemma header_total_witness :
  exists v,
    Message.header sample_configs
      (message_with system (MessageContent.mk "text" (Some []) None None))
    = Return v
    /\ dict_lookup "system"
         [("system", PStr "### System"); ("user", PStr "# Me");
          ("assistant", PStr "# ChatGPT"); ("tool", PStr "### Tool output")]
       = Some v.
Proof.
  exact (@header_total json_scalars sample_configs
           [("system", PStr "### System"); ("user", PStr "# Me");
            ("assistant", PStr "# ChatGPT"); ("tool", PStr "### Tool output")]
           (message_with system
              (MessageContent.mk "text" (Some []) None None))
           eq_refl
           ltac:(intros r; destruct r; discriminate)).
Defined.

(** X21: [fovea] and [metadata] are declared [Any] without a default: they
    are required and otherwise free.  A raw mapping that lacks either is
    not constructed, with a missing-field error at that field; with the
    five typed fields valid and both keys present, whatever they hold, null
    included, the image pointer is constructed and stores both as given. *)
Theorem image_pointer_any_fields `{Scalars} (kw : dict) :
  (forall name, name = "fovea" \/ name = "metadata" ->
                dict_lookup name kw = None ->
                exists errs,
                  ImageAssetPointer.init kw = Invalid errs
                  /\ In (mk_error [Key name] missing) errs)
  /\ (forall ct ap sb w h sbz wz hz fv md,
         dict_lookup "content_type" kw = Some (PStr ct) ->
         dict_lookup "asset_pointer" kw = Some (PStr ap) ->
         dict_lookup "size_bytes" kw = Some sb -> as_int sb = Some sbz ->
         dict_lookup "width" kw = Some w -> as_int w = Some wz ->
         dict_lookup "height" kw = Some h -> as_int h = Some hz ->
         dict_lookup "fovea" kw = Some fv ->
         dict_lookup "metadata" kw = Some md ->
         ImageAssetPointer.init kw
         = Valid (ImageAssetPointer.mk ct ap sbz wz hz fv md))
  /\ (forall e v, In e (errors_of (ImageAssetPointer.init kw)) ->
                  (dict_lookup "fovea" kw = Some v -> ~ at_field "fovea" e)
                  /\ (dict_lookup "metadata" kw = Some v ->
                      ~ at_field "metadata" e)).
Proof.
  split; [| split].
  - intros name Hname Hl.
    assert (He : In (mk_error [Key name] missing)
                   (errors_of (ImageAssetPointer.init kw))).
    { apply init_missing; [| exact Hl].
      destruct Hname as [-> | ->]; simpl; tauto. }
    exists (errors_of (ImageAssetPointer.init kw)). split; [| exact He].
    exact (invalid_of_error _ _ He).
  - intros ct ap sb w h sbz wz hz fv md
      Hct Hap Hsb Hsbz Hw Hwz Hh Hhz Hfv Hmd.
    exact (init_total kw ct ap sb w h fv md sbz wz hz
             Hct Hap Hsb Hsbz Hw Hwz Hh Hhz Hfv Hmd).
  - intros e v He.
    unfold ImageAssetPointer.init in He.
    rewrite !errors_of_ap in He. cbn [errors_of app] in He.
    rewrite !in_app_iff in He. unfold at_field.
    destruct He as [[[[[[He | He] | He] | He] | He] | He] | He];
      try (apply required_errors_head in He; unfold at_field in He;
           rewrite He; split; intros _; discriminate).
    + split; [| apply required_errors_head in He; unfold at_field in He;
                 rewrite He; intros _; discriminate].
      intros Hl. unfold required in He. rewrite Hl in He. contradiction.
    + split; [apply required_errors_head in He; unfold at_field in He;
              rewrite He; intros _; discriminate |].
      intros Hl. unfold required in He. rewrite Hl in He. contradiction.
Qed.

Lemma image_pointer_any_fields_witness :
  (exists errs,
      ImageAssetPointer.init
        [("content_type", PStr "image_asset_pointer");
         ("asset_pointer", PStr "file-service://file-abc");
         ("size_bytes", PInt 2048); ("width", PInt 512); ("height", PInt 512)]
      = Invalid errs
      /\ In (mk_error [Key "fovea"] missing) errs)
  /\ ImageAssetPointer.init (raw_image PNone PNone)
     = Valid (ImageAssetPointer.mk "image_asset_pointer"
                "file-service://file-abc" 2048 512 512 PNone PNone).
Proof.
  split.
  - exact (proj1
             (@image_pointer_any_fields json_scalars
                [("content_type", PStr "image_asset_pointer");
                 ("asset_pointer", PStr "file-service://file-abc");
                 ("size_bytes", PInt 2048); ("width", PInt 512);
                 ("height", PInt 512)])
             "fovea" (or_introl eq_refl) eq_refl).
  - exact (proj1 (proj2
             (@image_pointer_any_fields json_scalars
                (raw_image PNone PNone)))
             "image_asset_pointer" "file-service://file-abc"
             (PInt 2048) (PInt 512) (PInt 512) 2048%Z 512%Z 512%Z
             PNone PNone
             eq_refl eq_refl eq_refl eq_refl eq_refl eq_refl eq_refl eq_refl
             eq_refl eq_refl).
Defined.
